(** * sgpt.handlers.handler: the completion pipeline of shell_gpt

    A shallow embedding of [src/sgpt/handlers/handler.py]: the vendor
    adapter ([_adapt_parameters_to_anthropic], [completion]), the function
    dispatcher step ([Handler.handle_function_call]) and the completion
    engine ([Handler.get_completion]) together with the [@cache] decorator
    that wraps it.

    Python values are modelled by [pyval]; keyword arguments and the
    module-level [additional_kwargs] mapping are [gmap string pyval];
    generators are run against a finite stream of events, in the hands of
    a consumer that iterates them to their end or stops after some
    fragments, and return the fragments they yielded together with the way
    they ended.  Ctrl-C is modelled where it can arrive: while the call of
    the vendor waits, while the loop waits for the next chunk, inside a
    dispatched function, and in the consumer while the generator is
    suspended at a [yield]. *)

From Stdlib Require Import ZArith String.
From stdpp Require Import base option list strings pretty gmap.

Set Warnings "-register-all".

(** ** Python values *)

(** The values that flow through the handler: messages and function schemas
    are dicts, the transcript is a list of dicts.  A dict keeps its keys in
    insertion order, so it is an association list with unique keys.  A
    float is only ever compared and passed on; it is kept as the bit pattern
    of the double. *)
Inductive pyval : Type :=
| PNone
| PBool (b : bool)
| PInt (z : Z)
| PFloat (bits : Z)
| PStr (s : string)
| PList (l : list pyval)
| PDict (d : list (string * pyval)).

(** The exceptions the modelled code can raise.  [KeyboardInterruptRaised]
    is Python's [KeyboardInterrupt] travelling as an exception: raised by the
    call of the vendor or by a function while Ctrl-C is pressed. *)
Inductive exn : Type :=
| NameError (name : string)
| KeyError (key : string)
| TypeError (msg : string)
| AssertionError (arg : pyval)
| JSONDecodeError
| FunctionError (msg : string)
| KeyboardInterruptRaised.

(** [d.get(k)] / [k in d] / [d[k]] on a dict. *)
Fixpoint dict_get (d : list (string * pyval)) (k : string) : option pyval :=
  match d with
  | [] => None
  | (k', v) :: d' => if String.eqb k' k then Some v else dict_get d' k
  end.

(** [d[k] = v]: overwrite in place, or add the key at the end. *)
Fixpoint dict_set (d : list (string * pyval)) (k : string) (v : pyval)
  : list (string * pyval) :=
  match d with
  | [] => [(k, v)]
  | (k', v') :: d' =>
      if String.eqb k' k then (k', v) :: d' else (k', v') :: dict_set d' k v
  end.

(** [v == s] for a string literal [s]. *)
Definition py_eq_str (v : pyval) (s : string) : bool :=
  match v with
  | PStr s' => String.eqb s' s
  | _ => false
  end.

(** [v[k]] with a string subscript. *)
Definition py_getitem (v : pyval) (k : string) : exn + pyval :=
  match v with
  | PDict d =>
      match dict_get d k with
      | Some x => inr x
      | None => inl (KeyError k)
      end
  | PStr _ => inl (TypeError "string indices must be integers")
  | PList _ => inl (TypeError "list indices must be integers or slices")
  | _ => inl (TypeError "object is not subscriptable")
  end.

(** [v[k] = x] on a value on which [v[k]] has just succeeded. *)
Definition py_setitem (v : pyval) (k : string) (x : pyval) : pyval :=
  match v with
  | PDict d => PDict (dict_set d k x)
  | _ => v
  end.

(** [k in v] for a string [k]: key membership in a dict, substring of a
    string, element of a list; a [TypeError] on anything else. *)
Definition py_contains (k : string) (v : pyval) : exn + bool :=
  match v with
  | PDict d => inr (bool_decide (is_Some (dict_get d k)))
  | PStr s => inr (bool_decide (is_Some (String.index 0 k s)))
  | PList l => inr (existsb (fun x => py_eq_str x k) l)
  | _ => inl (TypeError "argument is not iterable")
  end.

(** The characters of a string, as one-character strings. *)
Fixpoint str_chars (s : string) : list pyval :=
  match s with
  | EmptyString => []
  | String c s' => PStr (String c EmptyString) :: str_chars s'
  end.

(** [for x in v]. *)
Definition py_iter (v : pyval) : exn + list pyval :=
  match v with
  | PList l => inr l
  | PStr s => inr (str_chars s)
  | PDict d => inr (map (fun kv => PStr kv.1) d)
  | _ => inl (TypeError "object is not iterable")
  end.

(** ** The vendor adapter (handler.py:32-67) *)

Module Anthropic.

(** The model name the adapter asserts (handler.py:62). *)
Definition asserted_model : string := "claude-3-5-sonnet-20241022".

(** [any(isinstance(arg, dict) and arg.get("role") == "system" for arg in args)] *)
Definition is_system_dict (arg : pyval) : bool :=
  match arg with
  | PDict d =>
      match dict_get d "role" with
      | Some r => py_eq_str r "system"
      | None => false
      end
  | _ => false
  end.

(** handler.py:42-46: the scan of the positional arguments for the
    transcript.  Returns the last list found (or [messages] untouched) and
    the other arguments. *)
Fixpoint scan_args (args : list pyval) (messages : pyval)
    (args_without_messages : list pyval) : exn + (pyval * list pyval) :=
  match args with
  | [] => inr (messages, args_without_messages)
  | arg :: args' =>
      match arg with
      | PList (first :: _) =>
          match py_contains "role" first with
          | inl e => inl e
          | inr true => scan_args args' arg args_without_messages
          | inr false => scan_args args' messages (args_without_messages ++ [arg])
          end
      | _ => scan_args args' messages (args_without_messages ++ [arg])
      end
  end.

(** [[{"type": "text", "text": content}]] (handler.py:55-58). *)
Definition text_block (content : pyval) : pyval :=
  PList [PDict [("type", PStr "text"); ("text", content)]].

(** handler.py:51-59.  The loop mutates every message that is not a system
    message in place, so the caller's transcript changes too: the second
    component is the list as its owner sees it once the loop has stopped
    (at its end or at the exception). *)
Fixpoint adapt_loop (messages : list pyval) (system_message : pyval)
    (messages_without_system : list pyval)
  : (exn + (pyval * list pyval)) * list pyval :=
  match messages with
  | [] => (inr (system_message, messages_without_system), [])
  | message :: rest =>
      match py_getitem message "role" with
      | inl e => (inl e, message :: rest)
      | inr r =>
          if py_eq_str r "system" then
            let '(res, rest') := adapt_loop rest message messages_without_system in
            (res, message :: rest')
          else
            match py_getitem message "content" with
            | inl e => (inl e, message :: rest)
            | inr c =>
                let message' := py_setitem message "content" (text_block c) in
                let '(res, rest') :=
                  adapt_loop rest system_message (messages_without_system ++ [message']) in
                (res, message' :: rest')
            end
      end
  end.

(** What a call of the adapter leaves behind: its result (or the exception
    it raised) and, when it got as far as the loop over a list, that list
    after the in-place rewriting. *)
Record adapted : Type := Adapted {
  ad_result : exn + (list pyval * gmap string pyval);
  ad_mutated : option (list pyval)
}.

(** handler.py:32-63. *)
Definition _adapt_parameters_to_anthropic (args : list pyval)
    (kwargs : gmap string pyval) : adapted :=
  if bool_decide (is_Some (kwargs !! "system")) then Adapted (inr (args, kwargs)) None
  else if existsb is_system_dict args then Adapted (inr (args, kwargs)) None
  else
    let messages := default PNone (kwargs !! "messages") in
    let kwargs := delete "messages" kwargs in
    let scanned :=
      match messages with
      | PNone => scan_args args PNone []
      | _ => inr (messages, args)
      end in
    match scanned with
    | inl e => Adapted (inl e) None
    | inr (messages, args_without_messages) =>
        let iterated :=
          match messages with
          | PList l => (adapt_loop l PNone [], Some l)
          | _ =>
              match py_iter messages with
              | inl e => ((inl e, []), None)
              | inr l => (adapt_loop l PNone [], None)
              end
          end in
        let '((res, mutated), owner) := iterated in
        let ad_mut := match owner with Some _ => Some mutated | None => None end in
        match res with
        | inl e => Adapted (inl e) ad_mut
        | inr (system_message, messages_without_system) =>
            let kwargs := <["messages" := PList messages_without_system]> kwargs in
            match py_getitem system_message "content" with
            | inl e => Adapted (inl e) ad_mut
            | inr c =>
                let kwargs := <["system" := c]> kwargs in
                match kwargs !! "model" with
                | None => Adapted (inl (KeyError "model")) ad_mut
                | Some m =>
                    if py_eq_str m asserted_model
                    then Adapted (inr (args_without_messages, kwargs)) ad_mut
                    else Adapted (inl (AssertionError m)) ad_mut
                end
            end
        end
    end.

(** A message as the handlers build them: a dict with a role and a content. *)
Definition well_formed (message : pyval) : bool :=
  match message with
  | PDict d =>
      bool_decide (is_Some (dict_get d "role"))
      && bool_decide (is_Some (dict_get d "content"))
  | _ => false
  end.

(** The message with its content wrapped in one text block. *)
Definition wrapped (message : pyval) : pyval :=
  match py_getitem message "content" with
  | inr c => py_setitem message "content" (text_block c)
  | inl _ => message
  end.

(** The transcript as its owner finds it after the adapter has run. *)
Definition rewritten (messages : list pyval) : list pyval :=
  map (fun m => if is_system_dict m then m else wrapped m) messages.

(** The messages the vendor receives. *)
Definition without_system (messages : list pyval) : list pyval :=
  map wrapped (filter (fun m => is_system_dict m = false) messages).

End Anthropic.

(** ** Streams, runs and the process state *)

(** One entry of [delta.tool_calls]: [tool_call.function.name] and
    [tool_call.function.arguments], either of which may be [None]. *)
Record tool_call : Type := ToolCall {
  function_name : option string;
  function_arguments : option string
}.

(** One streamed chunk: [chunk.choices[0].delta.tool_calls],
    [chunk.choices[0].delta.content] and [chunk.choices[0].finish_reason]. *)
Record chunk : Type := Chunk {
  delta_tool_calls : option (list tool_call);
  delta_content : option string;
  finish_reason : option string
}.

(** What iterating the response gives at each step: the next chunk, or a
    [KeyboardInterrupt] raised while the engine waits for it. *)
Inductive event : Type :=
| Next (c : chunk)
| KeyboardInterrupt.

(** The three branches of handler.py:21-74 that bind [completion]. *)
Inductive vendor : Type := LiteLLM | AnthropicClient | OpenAIClient.

(** How a generator ended.  [Exhausted] and [Interrupted] are both a plain
    return, which is all that its consumer or a wrapper around it can see:
    [Interrupted] only records that the return was that of the
    [except KeyboardInterrupt] branch (handler.py:184-185).  [Abandoned] is
    the generator that its consumer stopped iterating: it gets
    [GeneratorExit] at the [yield] where it is suspended, which that branch
    does not catch. *)
Inductive ending : Type :=
| Exhausted
| Interrupted
| Raised (e : exn)
| OutOfFuel
| Abandoned.

(** The state shared by all calls in one process.
    - [additional_kwargs]: the module-level dict of handler.py:15/68/74,
      which [get_completion] updates in place;
    - [completion_calls]: the keyword arguments of every call of
      [completion], oldest first;
    - [closed]: the responses on which [close()] was called, by the index of
      the call that returned them;
    - [dispatched]: name and argument blob of every function invoked;
    - [cache_entries]: the storage of [Handler.cache], oldest entry first. *)
Record process : Type := Process {
  additional_kwargs : gmap string pyval;
  completion_calls : list (gmap string pyval);
  closed : list nat;
  dispatched : list (string * string);
  cache_entries : list (string * list string)
}.

(** A generator run to its end: the fragments it yielded in order, how it
    ended, the transcript list it was given as its owner now sees it, and
    the process state afterwards. *)
Record run : Type := Run {
  yielded : list string;
  ended : ending;
  transcript : list pyval;
  after : process
}.

Definition nl : string := String (Ascii.ascii_of_nat 10) EmptyString.

(** Truth value of an optional string ([None] and the empty string are false). *)
Definition truthy (s : option string) : bool :=
  match s with
  | Some (String _ _) => true
  | _ => false
  end.

(** handler.py:166-170: the inner loop over [tool_calls]. *)
Fixpoint accumulate (tool_calls : list tool_call) (name arguments : string)
  : string * string :=
  match tool_calls with
  | [] => (name, arguments)
  | tc :: rest =>
      let name := if truthy (function_name tc)
                  then default "" (function_name tc) else name in
      let arguments := if truthy (function_arguments tc)
                       then arguments +:+ default "" (function_arguments tc)
                       else arguments in
      accumulate rest name arguments
  end.

(** Where the [for chunk in response] loop of handler.py:158-183 stops. *)
Inductive scanned : Type :=
| ScanEnd (out : list string)
| ScanInterrupt (out : list string)
| ScanRaise (e : exn) (out : list string)
| ScanToolCalls (out : list string) (name arguments : string).

Definition scan_yield (s : string) (r : scanned) : scanned :=
  match r with
  | ScanEnd out => ScanEnd (s :: out)
  | ScanInterrupt out => ScanInterrupt (s :: out)
  | ScanRaise e out => ScanRaise e (s :: out)
  | ScanToolCalls out name arguments => ScanToolCalls (s :: out) name arguments
  end.

(** handler.py:158-183 up to the point where the loop is left.
    [use_litellm] is the module global read at handler.py:163; [None] means
    that the name is not bound.  Bound to either value it selects how the
    same [tool_calls] field of the delta is read. *)
Fixpoint scan (use_litellm : option bool) (response : list event)
    (name arguments : string) : scanned :=
  match response with
  | [] => ScanEnd []
  | KeyboardInterrupt :: _ => ScanInterrupt []
  | Next c :: rest =>
      match use_litellm with
      | None => ScanRaise (NameError "use_litellm") []
      | Some _ =>
          let '(name, arguments) :=
            match delta_tool_calls c with
            | Some (tc :: tcs) => accumulate (tc :: tcs) name arguments
            | _ => (name, arguments)
            end in
          if bool_decide (finish_reason c = Some "tool_calls")
          then ScanToolCalls [] name arguments
          else scan_yield (default "" (delta_content c))
                 (scan use_litellm rest name arguments)
      end
  end.

(** Lookup in the cache storage. *)
Fixpoint cache_get (entries : list (string * list string)) (key : string)
  : option (list string) :=
  match entries with
  | [] => None
  | (k, v) :: rest => if String.eqb k key then Some v else cache_get rest key
  end.

(** ** The consumer of a generator *)

(** [None] iterates the generator to its end; [Some n] stops after it has
    received [n] fragments and lets go of the generator (with [n = 0] the
    generator is never started). *)
Definition consumer : Type := option nat.

(** The consumer stops within the fragments [out]: what it has taken. *)
Definition leaves (c : consumer) (out : list string) : option (list string) :=
  match c with
  | Some n => if (n <=? length out)%nat then Some (take n out) else None
  | None => None
  end.

(** The consumer once it has received all of [out]. *)
Definition after_taking (c : consumer) (out : list string) : consumer :=
  option_map (fun n => n - length out) c.

(** The fragments yielded before the loop over the response is left. *)
Definition fragments_of (r : scanned) : list string :=
  match r with
  | ScanEnd out | ScanInterrupt out | ScanRaise _ out | ScanToolCalls out _ _ => out
  end.

(** A generator returned, whichever way. *)
Definition returned (e : ending) : bool :=
  match e with
  | Exhausted | Interrupted => true
  | _ => false
  end.

(** ** What a stream carries *)

(** The chunk ends the turn with a function call (handler.py:171). *)
Definition finishes (c : chunk) : bool :=
  bool_decide (finish_reason c = Some "tool_calls").

(** The text a chunk contributes: [delta.content or ""]. *)
Definition text_of (c : chunk) : string := default "" (delta_content c).

(** All function-call deltas of a run of chunks, in arrival order. *)
Definition tool_calls_of (chunks : list chunk) : list tool_call :=
  concat (map (fun c => default [] (delta_tool_calls c)) chunks).

(** The concatenation of a list of fragments. *)
Definition joined (fragments : list string) : string :=
  foldr String.append "" fragments.

(** The non-empty name fragments and the argument fragments among them. *)
Definition name_fragments (tcs : list tool_call) : list string :=
  filter (fun s => s <> "") (omap function_name tcs).

Definition argument_fragments (tcs : list tool_call) : list string :=
  omap function_arguments tcs.

(** ** Sample data

    Concrete surroundings on which the statements below are exercised. *)

Module Sample.

Definition system_message : pyval :=
  PDict [("role", PStr "system"); ("content", PStr "You are ShellGPT")].

Definition user_message : pyval :=
  PDict [("role", PStr "user"); ("content", PStr "hello")].

Definition messages : list pyval := [system_message; user_message].

(** One function schema, as [get_openai_schemas] would list it. *)
Definition schema : pyval :=
  PDict [("type", PStr "function");
         ("function", PDict [("name", PStr "list_dir")])].

Definition text (s : string) : chunk := Chunk None (Some s) None.

Definition call (name arguments : option string) (finish : option string) : chunk :=
  Chunk (Some [ToolCall name arguments]) None finish.

(** A plain answer in two fragments. *)
Definition hi_there : list event := [Next (text "Hi"); Next (text " there")].

(** A function call whose name and arguments are split over two chunks. *)
Definition split_call : list event :=
  [Next (call (Some "list_") (Some "{") None);
   Next (call (Some "dir") (Some "}") (Some "tool_calls"))].

(** A function call with an argument blob that is not JSON. *)
Definition broken_call : list event :=
  [Next (text "Let me look.");
   Next (call (Some "list_dir") (Some "{path") (Some "tool_calls"))].

(** A well-formed function call. *)
Definition list_dir_call : list event :=
  [Next (call (Some "list_dir") None None);
   Next (call None (Some "{}") (Some "tool_calls"))].

(** An answer cut short by Ctrl-C after its first fragment. *)
Definition interrupted : list event :=
  [Next (text "Hi"); KeyboardInterrupt; Next (text " there")].

(** Ctrl-C while the engine waits for the first chunk. *)
Definition interrupted_at_once : list event :=
  [KeyboardInterrupt; Next (text "Hi")].

(** A client that answers its call number [n] with the [n]-th stream. *)
Definition client (streams : list (list event)) : nat -> gmap string pyval -> list event :=
  fun n _ => default [] (streams !! n).

(** A JSON parser that knows the empty object only. *)
Definition json_loads (s : string) : option pyval :=
  if String.eqb s "{}" then Some (PDict []) else None.

(** A registry with the single function [list_dir]. *)
Definition get_function (name : string)
  : exn + (list (string * pyval) -> exn + string) :=
  if String.eqb name "list_dir" then inr (fun _ => inr "README.md")
  else inl (FunctionError "function not found").

(** A key that separates requests by model and transcript length. *)
Definition fingerprint (model : string) (temperature top_p : Z)
    (messages : list pyval) (functions : option (list pyval)) : string :=
  model +:+ ":" +:+ pretty (length messages).

(** The keyword arguments [get_completion] writes out for a model and a
    transcript. *)
Definition request (model : string) (messages : list pyval) : gmap string pyval :=
  <["model" := PStr model]> (<["temperature" := PFloat 0]>
  (<["top_p" := PFloat 1]> (<["messages" := PList messages]>
  (<["stream" := PBool true]> ∅)))).

(** A process that has just loaded the module under the OpenAI or the
    Anthropic client (handler.py:68, 74), with an empty cache. *)
Definition fresh : process := Process ∅ [] [] [] [].

End Sample.

(** ** sgpt.config *)

Module Config.

(** [class SupportedVendor(StrEnum)] (config.py:19-21). *)
Inductive SupportedVendor : Type := ANTHROPIC | OPENAI.

(** [VENDOR_KEYWORDS] (config.py:24-27), in the order in which [.items()]
    lists it. *)
Definition VENDOR_KEYWORDS : list (SupportedVendor * list string) :=
  [(ANTHROPIC, ["claude"]); (OPENAI, ["gpt"])].

(** What the functions of the module raise. *)
Inductive error : Type :=
| ValueError (msg : string)
| UsageError (msg : string).

(** [str.lower()] on a string held as its UTF-8 bytes: the ASCII capitals
    are mapped, every other byte is kept.  No character outside ASCII has a
    lower-case form that contains a letter of the keywords above, so the
    tests [keyword in model_name] below see exactly what they see on the
    Python string. *)
Definition lower_char (c : Ascii.ascii) : Ascii.ascii :=
  let n := Ascii.nat_of_ascii c in
  if (65 <=? n)%nat && (n <=? 90)%nat then Ascii.ascii_of_nat (n + 32) else c.

Fixpoint lower (s : string) : string :=
  match s with
  | EmptyString => EmptyString
  | String c s' => String (lower_char c) (lower s')
  end.

(** [keyword in s]. *)
Definition contains (keyword s : string) : bool :=
  bool_decide (is_Some (String.index 0 keyword s)).

(** config.py:33-35: the first vendor one of whose keywords occurs in the
    (lower-cased) model name. *)
Fixpoint vendor_of (model_name : string)
    (table : list (SupportedVendor * list string)) : option SupportedVendor :=
  match table with
  | [] => None
  | (vendor, keywords) :: rest =>
      if existsb (fun keyword => contains keyword model_name) keywords
      then Some vendor
      else vendor_of model_name rest
  end.

Definition unable_to_infer : string :=
  "Unable to infer vendor from the provided model precedence list. "
  +:+ "Please ensure that the list contains at least one model name "
  +:+ "with a recognized vendor keyword ('claude' for anthropic, 'gpt' for openai).".

(** config.py:30-46. *)
Fixpoint infer_vendor_from_precedence (model_precedence : list string)
  : error + SupportedVendor :=
  match model_precedence with
  | [] => inl (ValueError unable_to_infer)
  | model_name :: rest =>
      match vendor_of (lower model_name) VENDOR_KEYWORDS with
      | Some vendor => inr vendor
      | None => infer_vendor_from_precedence rest
      end
  end.

(** The model name mentions the keyword, whatever the case of its letters. *)
Definition mentions (keyword model_name : string) : bool :=
  contains keyword (lower model_name).

(** Truth value of a Python value ([not value] is its negation): [None],
    [False], zero, the two float zeros and the empty string, list and dict
    are false. *)
Definition py_truth (v : pyval) : bool :=
  match v with
  | PNone => false
  | PBool b => b
  | PInt z => negb (Z.eqb z 0)
  | PFloat bits => negb (Z.eqb bits 0 || Z.eqb bits (2 ^ 63))
  | PStr s => negb (String.eqb s "")
  | PList l => match l with [] => false | _ => true end
  | PDict d => match d with [] => false | _ => true end
  end.

(** [Config.get] (config.py:154-159) on the environment [env] and the
    stored mapping [self]: [os.getenv(key) or super().get(key)], then the
    check that the value is not false. *)
Definition get (env : gmap string string) (self : gmap string pyval)
    (key : string) : error + pyval :=
  let from_env := match env !! key with Some s => PStr s | None => PNone end in
  let value :=
    if py_truth from_env then from_env else default PNone (self !! key) in
  if py_truth value then inr value
  else inl (UsageError ("Missing config key: " +:+ key)).

End Config.

(** ** The module at load time (handler.py:13-74) *)

(** The [additional_kwargs] the module ends up with: the timeout and the
    base URL under LiteLLM (handler.py:15-19), the empty dict under the two
    clients (handler.py:68, 74). *)
Definition initial_additional_kwargs (use_litellm_setting : string)
    (request_timeout : Z) (api_base_url : string) : gmap string pyval :=
  if String.eqb use_litellm_setting "true" then
    <["timeout" := PInt request_timeout]>
      (<["base_url" := if String.eqb api_base_url "default"
                       then PNone else PStr api_base_url]> ∅)
  else ∅.

(** ** Positional arguments of the adapter (handler.py:41-46) *)

(** A positional argument that the adapter takes for the transcript: a
    non-empty list whose first element contains ["role"]. *)
Definition transcript_like (arg : pyval) : bool :=
  match arg with
  | PList (first :: _) =>
      match py_contains "role" first with
      | inr found => found
      | inl _ => false
      end
  | _ => false
  end.

(** A positional argument on which the test of handler.py:43 does not
    raise: anything but a non-empty list whose first element does not
    support [in]. *)
Definition testable (arg : pyval) : bool :=
  match arg with
  | PList (first :: _) =>
      match py_contains "role" first with
      | inr _ => true
      | inl _ => false
      end
  | _ => true
  end.

(** ** More sample data *)

Module Case.

(** A function call for a name that the sample registry does not know. *)
Definition unknown_call : list event :=
  [Next (Sample.text "One moment.");
   Next (Sample.call (Some "erase_disk") (Some "{}") (Some "tool_calls"))].

(** A call of a function during which Ctrl-C is pressed. *)
Definition sleep_call : list event :=
  [Next (Sample.call (Some "sleep") (Some "{}") (Some "tool_calls"))].

(** The sample registry with one more function, cut short by Ctrl-C. *)
Definition get_function (name : string)
  : exn + (list (string * pyval) -> exn + string) :=
  if String.eqb name "sleep" then inr (fun _ => inl KeyboardInterruptRaised)
  else Sample.get_function name.

(** A model precedence list whose first entry names no known vendor. *)
Definition precedence : list string := ["llama-3-70b"; "GPT-4o"; "claude-3-opus"].

(** Positional arguments with two candidate transcripts and a number. *)
Definition positional : list pyval :=
  [PList [Sample.user_message]; PInt 7; PList Sample.messages].

(** Keyword arguments without the transcript. *)
Definition keywords_only : gmap string pyval :=
  <["model" := PStr Anthropic.asserted_model]> (<["stream" := PBool true]> ∅).

(** The defaults of the module, cut down to two keys: the precedence is
    the list that config.py:89 stores. *)
Definition defaults : gmap string pyval :=
  <["MODEL_PRECEDENCE" := PList [PStr "claude-3-5-sonnet-20241022"; PStr "gpt-4o"]]>
    (<["DEFAULT_COLOR" := PStr "magenta"]> ∅).

(** The pairs of a configuration file that sets the precedence. *)
Definition stored : list (string * string) :=
  [("MODEL_PRECEDENCE", "gpt-4o"); ("DEFAULT_COLOR", "green")].

End Case.

(** ** Config.__init__ (config.py:99-127) *)

Module ConfigInit.

Section Init.

(** The two string methods used at config.py:127. *)
Variable split_comma : string -> list string.
Variable strip : string -> string.

Inductive error : Type :=
| AttributeError (msg : string)
| KeyError (key : string).

(** [_read] (config.py:140-152) assigns the pairs of the file one after the
    other, so the last line of a key decides.  [stored] lists the pairs that
    a [_read] which does not raise assigns, in the order of their lines; the
    values are strings. *)
Definition read_all (stored : list (string * string)) : gmap string pyval :=
  foldl (fun self kv => <[kv.1 := PStr kv.2]> self) ∅ stored.

(** config.py:115-124: an API key that is neither among the defaults nor in
    the environment (set and not empty) is asked for with [getpass], and what
    is typed is added to the defaults. *)
Definition with_typed_key (key : string) (in_environment : bool) (typed : string)
    (defaults : gmap string pyval) : gmap string pyval :=
  if negb (Config.py_truth (default PNone (defaults !! key))) && negb in_environment
  then <[key := PStr typed]> defaults
  else defaults.

(** The state of the mapping and what [_write] was given to write (if it
    was called) when config.py:127 is reached. *)
Definition before_precedence (file_exists : bool) (stored : list (string * string))
    (defaults : gmap string pyval) (anthropic_in_env openai_in_env : bool)
    (typed_anthropic typed_openai : string)
  : gmap string pyval * option (gmap string pyval) :=
  if file_exists then
    let self := read_all stored in
    let has_new_config :=
      existsb (fun kv => bool_decide (self !! kv.1 = None)) (map_to_list defaults) in
    let self := self ∪ defaults in
    (self, if has_new_config then Some self else None)
  else
    let defaults :=
      with_typed_key "OPENAI_API_KEY" openai_in_env typed_openai
        (with_typed_key "ANTHROPIC_API_KEY" anthropic_in_env typed_anthropic defaults) in
    (defaults, Some defaults).

(** config.py:127. *)
Definition split_precedence (self : gmap string pyval)
  : error + gmap string pyval :=
  match self !! "MODEL_PRECEDENCE" with
  | None => inl (KeyError "MODEL_PRECEDENCE")
  | Some (PStr s) =>
      inr (<["MODEL_PRECEDENCE" := PList (map (fun m => PStr (strip m)) (split_comma s))]>
             self)
  | Some _ => inl (AttributeError "object has no attribute 'split'")
  end.

(** [Config.__init__]: the mapping it builds or the exception it raises,
    and what it wrote to the configuration file on the way. *)
Definition init (file_exists : bool) (stored : list (string * string))
    (defaults : gmap string pyval) (anthropic_in_env openai_in_env : bool)
    (typed_anthropic typed_openai : string)
  : (error + gmap string pyval) * option (gmap string pyval) :=
  let '(self, written) :=
    before_precedence file_exists stored defaults anthropic_in_env openai_in_env
      typed_anthropic typed_openai in
  (split_precedence self, written).

End Init.

End ConfigInit.

(** ** The handler *)

Section Handler.

(** The surroundings of the handler that are not its own code. *)

(** The module global [use_litellm] read at handler.py:163; [None] when the
    name is unbound. *)
Variable use_litellm : option bool.
(** Which branch of handler.py:21-74 bound [completion]. *)
Variable backend : vendor.
(** The vendor's client: the stream answered to the [n]-th call of
    [completion], given the keyword arguments it was dispatched with. *)
Variable client : nat -> gmap string pyval -> list event.
(** [json.loads]: [None] stands for [json.JSONDecodeError]. *)
Variable json_loads : string -> option pyval.
(** [sgpt.function.get_function]: resolves a name to a callable taking
    keyword arguments; both the lookup and the call may raise. *)
Variable get_function : string -> exn + (list (string * pyval) -> exn + string).
(** [cfg.get("SHOW_FUNCTIONS_OUTPUT") == "true"]. *)
Variable show_functions_output : bool.
(** [self.role.name] and the three names of [sgpt.role.DefaultRoles] it is
    compared with. *)
Variable role_name : string.
Variables SHELL CODE DESCRIBE_SHELL : string.
(** The key the cache derives from the arguments of a call, and
    [cfg.get("CACHE_LENGTH")]. *)
Variable fingerprint :
  string -> Z -> Z -> list pyval -> option (list pyval) -> string.
Variable cache_length : nat.
(** Ctrl-C while the [n]-th call of [completion] waits for the vendor: the
    call raises [KeyboardInterrupt] instead of returning its response. *)
Variable call_interrupted : nat -> bool.

(** What [handle_function_call] leaves behind: the fragments it yielded, the
    exception that ended it (if any), the transcript after its appends and
    the functions invoked so far. *)
Record handled : Type := Handled {
  hf_yielded : list string;
  hf_raised : option exn;
  hf_messages : list pyval;
  hf_dispatched : list (string * string)
}.

Definition assistant_function_call (name arguments : string) : pyval :=
  PDict [("role", PStr "assistant"); ("content", PStr "");
         ("function_call", PDict [("name", PStr name); ("arguments", PStr arguments)])].

Definition function_message (result name : string) : pyval :=
  PDict [("role", PStr "function"); ("content", PStr result); ("name", PStr name)].

(** handler.py:101-125. *)
Definition handle_function_call (messages : list pyval) (name arguments : string)
    (log : list (string * string)) : handled :=
  let messages := messages ++ [assistant_function_call name arguments] in
  let out :=
    match last messages with
    | Some m =>
        match py_getitem m "role" with
        | inr r => if py_eq_str r "assistant" then [nl] else []
        | inl _ => []
        end
    | None => []
    end in
  match json_loads arguments with
  | None => Handled out (Some JSONDecodeError) messages log
  | Some dict_args =>
      match get_function name with
      | inl e => Handled out (Some e) messages log
      | inr f =>
          match dict_args with
          | PDict kw =>
              let log := log ++ [(name, arguments)] in
              match f kw with
              | inl e => Handled out (Some e) messages log
              | inr result =>
                  let out :=
                    if show_functions_output
                    then out ++ ["```text" +:+ nl +:+ result +:+ nl +:+ "```" +:+ nl]
                    else out in
                  Handled out None (messages ++ [function_message result name]) log
              end
          | _ => Handled out (Some (TypeError "argument after ** must be a mapping"))
                   messages log
          end
      end
  end.

(** The keyword arguments written out at handler.py:148-154. *)
Definition explicit_kwargs (model : string) (temperature top_p : Z)
    (messages : list pyval) : gmap string pyval :=
  <["model" := PStr model]> (<["temperature" := PFloat temperature]>
  (<["top_p" := PFloat top_p]> (<["messages" := PList messages]>
  (<["stream" := PBool true]> ∅)))).

(** [completion(model=..., ..., stream=True, **additional_kwargs)]: a
    keyword given twice is a [TypeError] at the call site. *)
Definition call_kwargs (explicit extra : gmap string pyval)
  : exn + gmap string pyval :=
  if bool_decide (explicit ##ₘ extra)
  then inr (explicit ∪ extra)
  else inl (TypeError "got multiple values for keyword argument").

(** The module-level [completion] (handler.py:24, 65-67, 73).  The call is
    logged; under the Anthropic client the adapter runs first and rewrites
    the messages of the caller's list in place.  The response is returned
    with the index of the call, by which [close()] names it. *)
Definition completion (kwargs : gmap string pyval) (messages : list pyval)
    (p : process) : (exn + nat * list event) * list pyval * process :=
  let id := length (completion_calls p) in
  let p := Process (additional_kwargs p) (completion_calls p ++ [kwargs])
             (closed p) (dispatched p) (cache_entries p) in
  match backend with
  | AnthropicClient =>
      let a := Anthropic._adapt_parameters_to_anthropic [] kwargs in
      let messages := default messages (Anthropic.ad_mutated a) in
      match Anthropic.ad_result a with
      | inl e => (inl e, messages, p)
      | inr (_, kwargs') => (inr (id, client id kwargs'), messages, p)
      end
  | _ => (inr (id, client id kwargs), messages, p)
  end.

(** handler.py:143-146. *)
Definition offer_tools (functions : option (list pyval))
    (extra : gmap string pyval) : gmap string pyval :=
  match functions with
  | Some (f :: fs) =>
      <["parallel_tool_calls" := PBool false]>
        (<["tools" := PList (f :: fs)]> (<["tool_choice" := PStr "auto"]> extra))
  | _ => extra
  end.

(** handler.py:137-141. *)
Definition effective_functions (functions : option (list pyval))
  : option (list pyval) :=
  let is_shell_role := String.eqb role_name SHELL in
  let is_code_role := String.eqb role_name CODE in
  let is_dsc_shell_role := String.eqb role_name DESCRIBE_SHELL in
  if is_shell_role || is_code_role || is_dsc_shell_role then None else functions.

Definition with_additional (p : process) (extra : gmap string pyval) : process :=
  Process extra (completion_calls p) (closed p) (dispatched p) (cache_entries p).

Definition with_closed (p : process) (id : nat) : process :=
  Process (additional_kwargs p) (completion_calls p) (closed p ++ [id])
    (dispatched p) (cache_entries p).

Definition with_dispatched (p : process) (log : list (string * string)) : process :=
  Process (additional_kwargs p) (completion_calls p) (closed p) log (cache_entries p).

Definition with_cache (p : process) (entries : list (string * list string)) : process :=
  Process (additional_kwargs p) (completion_calls p) (closed p) (dispatched p) entries.

(** The signature of [self.get_completion] as callers see it, and the
    generator it returns driven by a consumer. *)
Definition method : Type :=
  bool -> string -> Z -> Z -> list pyval -> option (list pyval) -> process -> run.

Definition generator : Type := bool -> consumer -> string -> Z -> Z ->
  list pyval -> option (list pyval) -> process -> run.

(** handler.py:136-155: the role override, the update of the shared
    [additional_kwargs] and the call of [completion], which an interrupt
    may cut short. *)
Definition open_stream (model : string) (temperature top_p : Z)
    (messages : list pyval) (functions : option (list pyval)) (p : process)
  : (exn + nat * list event) * list pyval * process :=
  let functions := effective_functions functions in
  let p := with_additional p (offer_tools functions (additional_kwargs p)) in
  match call_kwargs (explicit_kwargs model temperature top_p messages)
          (additional_kwargs p) with
  | inl e => (inl e, messages, p)
  | inr kwargs =>
      match completion kwargs messages p with
      | (inr (id, response), messages, p) =>
          if call_interrupted id
          then (inl KeyboardInterruptRaised, messages, p)
          else (inr (id, response), messages, p)
      | raised => raised
      end
  end.

(** handler.py:157-185: the loop over the response [id], the function-call
    turn and the [except KeyboardInterrupt] branch, which covers the loop,
    the dispatch and the recursive call alike.  [self_get_completion] is
    what [self.get_completion] resolves to at handler.py:173; after the
    [yield from] of that call the generator returns, so the run ends the way
    the recursive run ended, unless that was by a [KeyboardInterrupt], which
    the branch catches.  A consumer that leaves at a [yield] finds the
    state as it is at that [yield]: at the newline of
    [handle_function_call] the assistant message is appended and no function
    invoked yet, at the echo of the result the function has been invoked and
    its message is not appended yet. *)
Definition consume (self_get_completion : generator) (c : consumer)
    (model : string) (temperature top_p : Z) (functions : option (list pyval))
    (id : nat) (response : list event) (messages : list pyval) (p : process)
  : run :=
  let scanned := scan use_litellm response "" "" in
  match leaves c (fragments_of scanned) with
  | Some taken => Run taken Abandoned messages p
  | None =>
      match scanned with
      | ScanEnd out => Run out Exhausted messages p
      | ScanInterrupt out => Run out Interrupted messages (with_closed p id)
      | ScanRaise e out => Run out (Raised e) messages p
      | ScanToolCalls out name arguments =>
          let c := after_taking c out in
          let h := handle_function_call messages name arguments (dispatched p) in
          match leaves c (hf_yielded h) with
          | Some taken =>
              Run (out ++ taken) Abandoned
                (messages ++ [assistant_function_call name arguments])
                (if (length taken <=? 1)%nat then p
                 else with_dispatched p (hf_dispatched h))
          | None =>
              let p := with_dispatched p (hf_dispatched h) in
              match hf_raised h with
              | Some KeyboardInterruptRaised =>
                  Run (out ++ hf_yielded h) Interrupted (hf_messages h)
                    (with_closed p id)
              | Some e => Run (out ++ hf_yielded h) (Raised e) (hf_messages h) p
              | None =>
                  let r := self_get_completion false
                             (after_taking c (hf_yielded h)) model temperature
                             top_p (hf_messages h) functions p in
                  match ended r with
                  | Raised KeyboardInterruptRaised =>
                      Run (out ++ hf_yielded h ++ yielded r) Interrupted
                        (transcript r) (with_closed (after r) id)
                  | _ =>
                      Run (out ++ hf_yielded h ++ yielded r) (ended r)
                        (transcript r) (after r)
                  end
              end
          end
      end
  end.

(** handler.py:128-185, the undecorated body. *)
Definition get_completion_body (self_get_completion : generator) (c : consumer)
    (model : string) (temperature top_p : Z) (messages : list pyval)
    (functions : option (list pyval)) (p : process) : run :=
  match open_stream model temperature top_p messages functions p with
  | (inl e, messages, p) => Run [] (Raised e) messages p
  | (inr (id, response), messages, p) =>
      consume self_get_completion c model temperature top_p
        (effective_functions functions) id response messages p
  end.

(** Modelled from the spec: [sgpt/cache.py] (class [Cache], whose instance
    decorates [get_completion] at handler.py:78 and 127) is not among the
    sources.  Spec 4.2: with [caching=false] the wrapper is bypassed, no
    read and no write; with [caching=true] the fingerprint of all arguments
    but [caching] is looked up, a hit replays the stored fragments without
    calling the wrapped function, a miss calls it, collects what it yields
    and, only if it is exhausted without interruption, commits the fragments
    as the newest entry and then evicts the oldest entries beyond the
    configured capacity.  A wrapper sees of the wrapped generator its
    fragments and whether it returned, raised or was let go of: the return
    of the [except KeyboardInterrupt] branch is a return like any other. *)
Definition cache (f : consumer -> string -> Z -> Z -> list pyval ->
                      option (list pyval) -> process -> run) : generator :=
  fun caching c model temperature top_p messages functions p =>
    if caching then
      let key := fingerprint model temperature top_p messages functions in
      match cache_get (cache_entries p) key with
      | Some fragments =>
          match leaves c fragments with
          | Some taken => Run taken Abandoned messages p
          | None => Run fragments Exhausted messages p
          end
      | None =>
          let r := f c model temperature top_p messages functions p in
          if returned (ended r) then
            let entries := cache_entries (after r) ++ [(key, yielded r)] in
            let entries := drop (length entries - cache_length) entries in
            Run (yielded r) (ended r) (transcript r) (with_cache (after r) entries)
          else r
      end
    else f c model temperature top_p messages functions p.

(** The decorated generator driven by a consumer.  [fuel] bounds the depth
    of the calls it makes to itself; a generator that is never iterated does
    nothing. *)
Fixpoint get_completion_taking (fuel : nat) : generator :=
  match fuel with
  | O => fun _ _ _ _ _ messages _ p => Run [] OutOfFuel messages p
  | S fuel' =>
      fun caching c model temperature top_p messages functions p =>
        match c with
        | Some O => Run [] Abandoned messages p
        | _ =>
            cache (get_completion_body (get_completion_taking fuel')) caching c
              model temperature top_p messages functions p
        end
  end.

(** [Handler.get_completion] as decorated at handler.py:127, iterated to
    its end. *)
Definition get_completion (fuel : nat) : method :=
  fun caching => get_completion_taking fuel caching None.

(** ** Predicates on states and methods *)

(** What a call may change in the process state: the three logs only grow,
    and each function invoked is paid for by a call of [completion]. *)
Definition grows (p p' : process) : Prop :=
  completion_calls p `prefix_of` completion_calls p' /\
  closed p `prefix_of` closed p' /\
  dispatched p `prefix_of` dispatched p' /\
  length (dispatched p') + length (completion_calls p)
    <= length (dispatched p) + length (completion_calls p').

(** A generator that only ever extends the logs. *)
Definition growing (g : generator) : Prop :=
  forall caching c model temperature top_p messages functions p,
    grows p (after (g caching c model temperature top_p messages functions p)).

(** A generator that leaves the cache alone when called with
    [caching=false]. *)
Definition bypassing (g : generator) : Prop :=
  forall c model temperature top_p messages functions p,
    cache_entries (after (g false c model temperature top_p messages functions p))
    = cache_entries p.

(** None of the keywords written out at handler.py:149-153 is a key of the
    shared mapping, so that [**additional_kwargs] does not repeat one. *)
Definition keywords_free (extra : gmap string pyval) : bool :=
  forallb (fun k => bool_decide (extra !! k = None))
    ["model"; "temperature"; "top_p"; "messages"; "stream"].

(** A generator after which the shared mapping is as it was, or as the
    update of handler.py:143-146 leaves it. *)
Definition settling (g : generator) : Prop :=
  forall caching c model temperature top_p messages functions p,
    let a := additional_kwargs
               (after (g caching c model temperature top_p messages functions p)) in
    a = additional_kwargs p \/
    a = offer_tools (effective_functions functions) (additional_kwargs p).

(** A message that a function-call turn appends: the assistant's
    [function_call] message or the function's result. *)
Definition turn_message (m : pyval) : bool :=
  match py_getitem m "role" with
  | inr r => py_eq_str r "assistant" || py_eq_str r "function"
  | inl _ => false
  end.

(** The ways the call of the function resolved by [get_function(name)] on
    the keyword-expanded [dict_args] (handler.py:122) can raise [e] once the
    arguments have parsed: the name does not resolve, the parsed value is not an object, or
    the function itself raises. *)
Definition dispatch_raises (name arguments : string) (e : exn) : Prop :=
  (exists v, json_loads arguments = Some v /\ get_function name = inl e) \/
  (exists v f, json_loads arguments = Some v /\ get_function name = inr f /\
               (forall kw, v <> PDict kw) /\
               e = TypeError "argument after ** must be a mapping") \/
  (exists kw f, json_loads arguments = Some (PDict kw) /\
                get_function name = inr f /\ f kw = inl e).

(** ** Frame properties *)

Lemma grows_refl p : grows p p.
Proof. repeat split; try reflexivity. Qed.

Lemma grows_trans p1 p2 p3 : grows p1 p2 -> grows p2 p3 -> grows p1 p3.
Proof.
  intros (Hc1 & Hk1 & Hd1 & Hn1) (Hc2 & Hk2 & Hd2 & Hn2).
  repeat split; try (etrans; eassumption). lia.
Qed.

Lemma completion_frame kwargs messages p res messages' p' :
  completion kwargs messages p = (res, messages', p') ->
  p' = Process (additional_kwargs p) (completion_calls p ++ [kwargs])
         (closed p) (dispatched p) (cache_entries p) /\
  forall id response, res = inr (id, response) -> id = length (completion_calls p).
Proof.
  unfold completion. intros H.
  destruct backend;
    repeat match type of H with
           | context [match ?x with _ => _ end] => destruct x
           end;
    inversion H; subst; split; try reflexivity; intros ? ? [= <- _]; reflexivity.
Qed.

Lemma open_stream_frame model temperature top_p messages functions p res messages' p' :
  open_stream model temperature top_p messages functions p = (res, messages', p') ->
  additional_kwargs p'
    = offer_tools (effective_functions functions) (additional_kwargs p) /\
  closed p' = closed p /\ dispatched p' = dispatched p /\
  cache_entries p' = cache_entries p /\
  match call_kwargs (explicit_kwargs model temperature top_p messages)
          (offer_tools (effective_functions functions) (additional_kwargs p)) with
  | inl e => res = inl e /\ completion_calls p' = completion_calls p
  | inr kwargs =>
      completion_calls p' = completion_calls p ++ [kwargs] /\
      forall id response, res = inr (id, response) ->
                          id = length (completion_calls p)
  end.
Proof.
  unfold open_stream. cbn [with_additional additional_kwargs].
  destruct (call_kwargs _ _) as [e|kwargs] eqn:Hk.
  - intros [= <- <- <-]. cbn. repeat split; eauto.
  - destruct (completion _ _ _) as [[res0 m0] p0] eqn:Hc.
    apply completion_frame in Hc as [-> Hid].
    destruct res0 as [e|[id response]];
      [|destruct (call_interrupted id)]; intros [= <- <- <-]; cbn;
      repeat split; try reflexivity; try discriminate.
    intros ? ? [= <- <-]. by eapply Hid.
Qed.

(** An interrupt that arrives while [completion] waits is raised by
    [open_stream], after the request has been logged. *)
Lemma open_stream_interrupted model temperature top_p messages functions p :
  call_interrupted (length (completion_calls p)) = true ->
  forall res messages' p',
    open_stream model temperature top_p messages functions p = (res, messages', p') ->
    exists e, res = inl e.
Proof.
  intros Hint res messages' p'. unfold open_stream.
  cbn [with_additional additional_kwargs].
  destruct (call_kwargs _ _) as [e|kwargs]; [intros [= <- _ _]; eauto|].
  destruct (completion _ _ _) as [[res0 m0] p0] eqn:Hc.
  apply completion_frame in Hc as [_ Hid].
  destruct res0 as [e|[id response]]; [intros [= <- _ _]; eauto|].
  pose proof (Hid id response eq_refl) as ->. cbn. rewrite Hint.
  intros [= <- _ _]. eauto.
Qed.

Lemma grows_closed p q id : grows p q -> grows p (with_closed q id).
Proof.
  intros (Hc & Hk & Hd & Hn). unfold grows. cbn. split_and!; try done.
  etrans; [exact Hk|]. by apply prefix_app_r.
Qed.

Lemma handle_function_call_log messages name arguments log :
  let h := handle_function_call messages name arguments log in
  hf_dispatched h = log \/ hf_dispatched h = log ++ [(name, arguments)].
Proof.
  unfold handle_function_call. cbn zeta.
  repeat match goal with
         | |- context [match ?x with _ => _ end] => destruct x
         end; cbn; auto.
Qed.


(** The turn itself: one more call of [completion], at most one more
    function invoked. *)
Lemma body_grows self c model temperature top_p messages functions p :
  growing self ->
  grows p (after (get_completion_body self c model temperature top_p messages functions p)).
Proof.
  intros Hself. unfold get_completion_body.
  destruct (open_stream _ _ _ _ _ _) as [[res messages'] p'] eqn:Hopen.
  apply open_stream_frame in Hopen as (_ & Hcl & Hd & _ & Hcalls).
  destruct (call_kwargs _ _) as [e|kw].
  { destruct Hcalls as [-> Hc]. cbn. unfold grows. by rewrite Hcl, Hd, Hc. }
  destruct Hcalls as [Hc _].
  assert (Hpp' : completion_calls p `prefix_of` completion_calls p')
    by (rewrite Hc; by apply prefix_app_r).
  assert (Hlen : length (completion_calls p') = S (length (completion_calls p)))
    by (rewrite Hc, length_app; cbn; lia).
  destruct res as [e|[id response]]; cbn.
  - unfold grows. rewrite Hcl, Hd. split_and!; try done. lia.
  - assert (Hp' : grows p p').
    { unfold grows. rewrite Hcl, Hd. split_and!; try done. lia. }
    unfold consume. cbn zeta.
    destruct (leaves c _); [exact Hp'|].
    destruct (scan _ _ _ _) as [out|out|e out|out name arguments]; cbn;
      try exact Hp'; [by apply grows_closed|].
    pose proof (handle_function_call_log messages' name arguments (dispatched p')) as Hlog.
    cbn zeta in Hlog.
    set (h := handle_function_call messages' name arguments (dispatched p')) in *.
    assert (Hstep : grows p (with_dispatched p' (hf_dispatched h))).
    { unfold grows. cbn.
      destruct Hlog as [-> | ->]; rewrite ?Hcl, ?Hd, ?length_app; cbn;
        split_and!; try done; try lia.
      by apply prefix_app_r. }
    destruct (leaves _ (hf_yielded h)) as [taken|]; cbn.
    { by destruct (length taken <=? 1)%nat. }
    destruct (hf_raised h) as [e|]; cbn.
    { destruct e; cbn; try exact Hstep. by apply grows_closed. }
    match goal with |- context [self ?a ?b ?c ?d ?e ?f ?g ?q] =>
      pose proof (Hself a b c d e f g q) as Hrec;
      set (r := self a b c d e f g q) in * end.
    assert (Hr : grows p (after r)) by (eapply grows_trans; eassumption).
    destruct (ended r) as [| |e| |]; cbn; try exact Hr.
    destruct e; cbn; try exact Hr. by apply grows_closed.
Qed.

Lemma cache_grows f :
  (forall c model temperature top_p messages functions p,
      grows p (after (f c model temperature top_p messages functions p))) ->
  growing (cache f).
Proof.
  intros Hf caching c model temperature top_p messages functions p. unfold cache.
  destruct caching; [|apply Hf].
  destruct (cache_get _ _).
  { destruct (leaves c _); cbn; apply grows_refl. }
  specialize (Hf c model temperature top_p messages functions p).
  destruct (returned _); cbn; exact Hf.
Qed.

Lemma get_completion_growing fuel : growing (get_completion_taking fuel).
Proof.
  induction fuel as [|fuel IH]; cbn [get_completion_taking].
  - intros ? ? ? ? ? ? ? ?. apply grows_refl.
  - intros caching [[|n]|] model temperature top_p messages functions p;
      try apply grows_refl;
      apply cache_grows; intros; by apply body_grows.
Qed.

Lemma consume_bypass self c model temperature top_p functions id response messages p :
  bypassing self ->
  cache_entries (after (consume self c model temperature top_p functions id response messages p))
  = cache_entries p.
Proof.
  intros Hself. unfold consume. cbn zeta.
  destruct (leaves c _); [reflexivity|].
  destruct (scan _ _ _ _); cbn; try reflexivity.
  destruct (leaves _ _) as [taken|]; cbn.
  { by destruct (length taken <=? 1)%nat. }
  destruct (hf_raised _) as [e|]; cbn; [by destruct e|].
  match goal with |- context [self ?a ?b ?c ?d ?e ?f ?g ?q] =>
    pose proof (Hself b c d e f g q) as Hrec;
    set (r := self a b c d e f g q) in * end.
  destruct (ended r) as [| |e| |]; cbn; try exact Hrec.
  destruct e; cbn; exact Hrec.
Qed.

Lemma body_bypass self c model temperature top_p messages functions p :
  bypassing self ->
  cache_entries (after (get_completion_body self c model temperature top_p messages functions p))
  = cache_entries p.
Proof.
  intros Hself. unfold get_completion_body.
  destruct (open_stream _ _ _ _ _ _) as [[res messages'] p'] eqn:Hopen.
  apply open_stream_frame in Hopen as (_ & _ & _ & Hcache & _).
  destruct res as [e|[id response]]; cbn; [done|].
  by rewrite consume_bypass.
Qed.

Lemma get_completion_bypassing fuel : bypassing (get_completion_taking fuel).
Proof.
  induction fuel as [|fuel IH]; cbn [get_completion_taking];
    intros c ? ? ? ? ? ?.
  - reflexivity.
  - destruct c as [[|n]|]; try reflexivity; unfold cache; by apply body_bypass.
Qed.


(** ** Keyword arguments of the vendor request *)

Lemma keywords_free_spec extra :
  keywords_free extra = true ->
  extra !! "model" = None /\ extra !! "temperature" = None /\
  extra !! "top_p" = None /\ extra !! "messages" = None /\ extra !! "stream" = None.
Proof.
  unfold keywords_free. cbn. rewrite !andb_true_iff, !bool_decide_eq_true.
  tauto.
Qed.

Lemma keywords_free_offer_tools functions extra :
  keywords_free extra = true -> keywords_free (offer_tools functions extra) = true.
Proof.
  intros H. destruct functions as [[|f fs]|]; cbn [offer_tools]; try exact H.
  apply keywords_free_spec in H as (? & ? & ? & ? & ?).
  unfold keywords_free. cbn. rewrite !andb_true_iff, !bool_decide_eq_true.
  rewrite !lookup_insert_ne by done. tauto.
Qed.

Lemma call_kwargs_free model temperature top_p messages extra :
  keywords_free extra = true ->
  call_kwargs (explicit_kwargs model temperature top_p messages) extra
  = inr (explicit_kwargs model temperature top_p messages ∪ extra).
Proof.
  intros H. apply keywords_free_spec in H as (? & ? & ? & ? & ?).
  unfold call_kwargs. rewrite bool_decide_eq_true_2; [reflexivity|].
  apply map_disjoint_alt. intros k. unfold explicit_kwargs.
  destruct (decide (k = "model")) as [->|]; [by right|].
  destruct (decide (k = "temperature")) as [->|]; [by right|].
  destruct (decide (k = "top_p")) as [->|]; [by right|].
  destruct (decide (k = "messages")) as [->|]; [by right|].
  destruct (decide (k = "stream")) as [->|]; [by right|].
  left. by rewrite !lookup_insert_ne, lookup_empty.
Qed.

Lemma tool_keys_not_explicit k :
  k ∈ ["tools"; "tool_choice"; "parallel_tool_calls"] ->
  k ∉ ["model"; "temperature"; "top_p"; "messages"; "stream"].
Proof using Type.
  intros Hk Hin. apply list_elem_of_In in Hk. apply list_elem_of_In in Hin.
  cbn in Hk, Hin.
  destruct Hk as [<-|[<-|[<-|[]]]];
    destruct Hin as [?|[?|[?|[?|[?|[]]]]]]; discriminate.
Qed.

(** A key of the request that is not one of the five written out comes
    from the shared mapping. *)
Lemma lookup_explicit_union model temperature top_p messages extra k :
  k ∉ ["model"; "temperature"; "top_p"; "messages"; "stream"] ->
  (explicit_kwargs model temperature top_p messages ∪ extra) !! k = extra !! k.
Proof using Type.
  intros Hk. rewrite lookup_union_r; [reflexivity|].
  assert ("model" <> k /\ "temperature" <> k /\ "top_p" <> k /\
          "messages" <> k /\ "stream" <> k) as (? & ? & ? & ? & ?)
    by (split_and!; intros <-; apply Hk; repeat constructor).
  unfold explicit_kwargs. by rewrite !lookup_insert_ne, lookup_empty.
Qed.

(** ** The cache *)

Lemma cache_get_drop entries key fragments k :
  cache_get entries key = None -> k <= length entries ->
  cache_get (drop k (entries ++ [(key, fragments)])) key = Some fragments.
Proof.
  revert k. induction entries as [|[key' v] entries IH]; intros k Hnone Hk.
  - cbn in Hk. replace k with 0 by lia. cbn. by rewrite String.eqb_refl.
  - cbn in Hnone. destruct (String.eqb key' key) eqn:E; [done|].
    destruct k as [|k]; cbn.
    + rewrite E. apply (IH 0); [done|lia].
    + apply IH; [done|]. cbn in Hk. lia.
Qed.


Lemma consume_calls self c model temperature top_p functions id response messages p :
  growing self ->
  completion_calls p `prefix_of`
    completion_calls (after (consume self c model temperature top_p functions id
                               response messages p)).
Proof.
  intros Hself. unfold consume. cbn zeta.
  destruct (leaves c _); [reflexivity|].
  destruct (scan _ _ _ _); cbn; try reflexivity.
  destruct (leaves _ _) as [taken|]; cbn.
  { by destruct (length taken <=? 1)%nat. }
  destruct (hf_raised _) as [e|]; cbn; [by destruct e|].
  match goal with |- context [self ?a ?b ?c ?d ?e ?f ?g ?q] =>
    destruct (Hself a b c d e f g q) as (Hrec & _);
    set (r := self a b c d e f g q) in * end.
  destruct (ended r) as [| |e| |]; cbn; try exact Hrec.
  destruct e; cbn; exact Hrec.
Qed.

(** The request a turn sends: the five keywords written out, then the
    shared mapping as the turn has just updated it. *)
Lemma body_request self c model temperature top_p messages functions p :
  growing self -> keywords_free (additional_kwargs p) = true ->
  completion_calls
    (after (get_completion_body self c model temperature top_p messages functions p))
    !! length (completion_calls p)
  = Some (explicit_kwargs model temperature top_p messages
          ∪ offer_tools (effective_functions functions) (additional_kwargs p)).
Proof.
  intros Hself Hfree. unfold get_completion_body.
  destruct (open_stream _ _ _ _ _ _) as [[res messages'] p'] eqn:Hopen.
  apply open_stream_frame in Hopen as (_ & _ & _ & _ & Hcalls).
  rewrite call_kwargs_free in Hcalls by by apply keywords_free_offer_tools.
  destruct Hcalls as [Hc _].
  assert (Hat : completion_calls p' !! length (completion_calls p)
                = Some (explicit_kwargs model temperature top_p messages
                        ∪ offer_tools (effective_functions functions)
                            (additional_kwargs p))).
  { rewrite Hc. by apply list_lookup_middle. }
  destruct res as [e|[id response]]; cbn; [exact Hat|].
  eapply prefix_lookup_Some; [exact Hat|]. by apply consume_calls.
Qed.


Section Cache.

Variable f : consumer -> string -> Z -> Z -> list pyval -> option (list pyval) ->
             process -> run.
Variables (c : consumer) (model : string) (temperature top_p : Z)
          (messages : list pyval) (functions : option (list pyval)) (p : process).

Let key := fingerprint model temperature top_p messages functions.
Let r := f c model temperature top_p messages functions p.


Lemma cache_miss_commit :
  cache_get (cache_entries p) key = None -> returned (ended r) = true ->
  cache f true c model temperature top_p messages functions p
  = Run (yielded r) (ended r) (transcript r)
      (with_cache (after r)
         (drop (length (cache_entries (after r) ++ [(key, yielded r)]) - cache_length)
            (cache_entries (after r) ++ [(key, yielded r)]))).
Proof. unfold cache. fold key r. by intros -> ->. Qed.

Lemma cache_miss_discard :
  cache_get (cache_entries p) key = None -> returned (ended r) = false ->
  cache f true c model temperature top_p messages functions p = r.
Proof. unfold cache. fold key r. by intros -> ->. Qed.

Lemma cache_off :
  cache f false c model temperature top_p messages functions p = r.
Proof. reflexivity. Qed.

End Cache.

(** One level of [get_completion] iterated to its end: the decorator around
    the body, whose calls to itself resolve one level down. *)
Lemma get_completion_unfold fuel caching model temperature top_p messages functions p :
  get_completion (S fuel) caching model temperature top_p messages functions p
  = cache (get_completion_body (get_completion_taking fuel)) caching None
      model temperature top_p messages functions p.
Proof. reflexivity. Qed.

(** ** The claims *)



(** ** The loop over the response *)

Lemma append_empty_r (s : string) : s +:+ "" = s.
Proof.
  induction s as [|a s IH]; [done|].
  change (String a s +:+ "") with (String a (s +:+ "")). by rewrite IH.
Qed.

Lemma append_assoc (s1 s2 s3 : string) : (s1 +:+ s2) +:+ s3 = s1 +:+ (s2 +:+ s3).
Proof.
  induction s1 as [|a s1 IH]; [done|].
  change (String a s1 +:+ s2) with (String a (s1 +:+ s2)).
  change (String a (s1 +:+ s2) +:+ s3) with (String a ((s1 +:+ s2) +:+ s3)).
  change (String a s1 +:+ (s2 +:+ s3)) with (String a (s1 +:+ (s2 +:+ s3))).
  by rewrite IH.
Qed.

(** The inner loop keeps the last non-empty name it meets and appends
    every argument fragment. *)
Lemma accumulate_spec tcs name arguments :
  accumulate tcs name arguments
  = (default name (last (name_fragments tcs)),
     arguments +:+ joined (argument_fragments tcs)).
Proof.
  revert name arguments.
  induction tcs as [|[n a] tcs IH]; intros name arguments; cbn [accumulate].
  - cbn. by rewrite append_empty_r.
  - rewrite IH. cbn [function_name function_arguments]. f_equal.
    + unfold name_fragments. destruct n as [[|c n]|]; cbn; try done.
      rewrite decide_True by done.
      destruct (filter _ _) as [|x l] eqn:E; [done|].
      rewrite last_cons_cons.
      destruct (last (x :: l)) eqn:El; [done|]. by apply last_None in El.
    + unfold argument_fragments. destruct a as [[|c a]|];
        cbn [truthy omap default joined foldr option_bind mbind]; try done.
      by rewrite append_assoc.
Qed.


Lemma accumulate_app tcs1 tcs2 name arguments :
  accumulate (tcs1 ++ tcs2) name arguments
  = accumulate tcs2 (accumulate tcs1 name arguments).1
      (accumulate tcs1 name arguments).2.
Proof.
  revert name arguments.
  induction tcs1 as [|tc tcs1 IH]; intros name arguments; [done|].
  cbn [app accumulate]. apply IH.
Qed.

Lemma yield_all_shape out r :
  foldr scan_yield r out =
  match r with
  | ScanEnd o => ScanEnd (out ++ o)
  | ScanInterrupt o => ScanInterrupt (out ++ o)
  | ScanRaise e o => ScanRaise e (out ++ o)
  | ScanToolCalls o name arguments => ScanToolCalls (out ++ o) name arguments
  end.
Proof.
  induction out as [|s out IH]; cbn [foldr]; [by destruct r|].
  rewrite IH. by destruct r.
Qed.

(** With [use_litellm] unbound, as handler.py:14 leaves it, the first chunk
    of any response ends the run with a [NameError]. *)
Lemma scan_unbound c rest name arguments :
  use_litellm = None ->
  scan use_litellm (Next c :: rest) name arguments
  = ScanRaise (NameError "use_litellm") [].
Proof. by intros ->. Qed.

(** With [use_litellm] bound, chunks that do not end the turn are consumed
    one by one: each yields its text and feeds its function-call deltas to
    the accumulators. *)
Lemma scan_plain b pre tail name arguments :
  use_litellm = Some b ->
  Forall (fun c => finishes c = false) pre ->
  scan use_litellm (map Next pre ++ tail) name arguments
  = foldr scan_yield
      (scan use_litellm tail
         (accumulate (tool_calls_of pre) name arguments).1
         (accumulate (tool_calls_of pre) name arguments).2)
      (map text_of pre).
Proof.
  intros Hb Hplain. revert name arguments.
  induction Hplain as [|c pre Hc Hpre IH]; intros name arguments; [done|].
  cbn [map app scan foldr]. rewrite Hb.
  unfold finishes in Hc. rewrite Hc.
  unfold tool_calls_of. cbn [map concat]. fold (tool_calls_of pre).
  rewrite accumulate_app.
  assert (Hacc : match delta_tool_calls c with
                 | Some (tc :: tcs) => accumulate (tc :: tcs) name arguments
                 | _ => (name, arguments)
                 end = accumulate (default [] (delta_tool_calls c)) name arguments)
    by (by destruct (delta_tool_calls c) as [[|tc tcs]|]).
  rewrite Hacc.
  destruct (accumulate (default [] (delta_tool_calls c)) name arguments) as [n a].
  cbn [fst snd]. rewrite <- Hb, IH. done.
Qed.

(** A [KeyboardInterrupt] ahead of the first chunk is caught whatever
    [use_litellm] is. *)
Lemma scan_interrupt pre rest name arguments :
  pre = [] \/ is_Some use_litellm ->
  Forall (fun c => finishes c = false) pre ->
  scan use_litellm (map Next pre ++ KeyboardInterrupt :: rest) name arguments
  = ScanInterrupt (map text_of pre).
Proof.
  intros [->|[b Hb]] Hplain; [done|].
  rewrite (scan_plain b) by done. cbn [scan].
  by rewrite yield_all_shape, app_nil_r.
Qed.


Lemma fragments_of_yield_all out r :
  fragments_of (foldr scan_yield r out) = out ++ fragments_of r.
Proof. rewrite yield_all_shape. by destruct r. Qed.

(** A consumer that stops within the first fragments has taken a prefix of
    them. *)
Lemma leaves_app n out more :
  n <= length out -> leaves (Some n) (out ++ more) = Some (take n out).
Proof.
  intros Hn. unfold leaves. rewrite length_app.
  destruct (Nat.leb_spec n (length out + length more)) as [_|?]; [|lia].
  by rewrite take_app_le.
Qed.

Lemma leaves_started c out : leaves c out = None -> c <> Some 0.
Proof. by intros H ->. Qed.

(** A generator that has been started runs the decorator around the
    body. *)
Lemma get_completion_taking_unfold fuel caching c model temperature top_p
    messages functions p :
  c <> Some 0 ->
  get_completion_taking (S fuel) caching c model temperature top_p messages functions p
  = cache (get_completion_body (get_completion_taking fuel)) caching c
      model temperature top_p messages functions p.
Proof. intros Hc. cbn [get_completion_taking]. by destruct c as [[|n]|]. Qed.

(** A run that did not return leaves the cache as it found it. *)
Lemma unfinished_run_not_cached fuel caching c model temperature top_p messages
    functions p :
  let r := get_completion_taking fuel caching c model temperature top_p messages
             functions p in
  returned (ended r) = false -> cache_entries (after r) = cache_entries p.
Proof.
  destruct fuel as [|fuel]; [done|]. cbn zeta.
  destruct (decide (c = Some 0)) as [->|Hc]; [done|].
  rewrite get_completion_taking_unfold by done.
  destruct caching; [|intros _; rewrite cache_off;
                      apply body_bypass, get_completion_bypassing].
  set (F := get_completion_body (get_completion_taking fuel)).
  unfold cache.
  destruct (cache_get _ _) as [fragments|] eqn:Hget.
  - by destruct (leaves c fragments).
  - destruct (returned (ended (F c model temperature top_p messages functions p)))
      eqn:Hend; cbn [ended]; [congruence|]. intros _.
    apply body_bypass, get_completion_bypassing.
Qed.

(** What the body does with a response that an interrupt cuts short while
    the loop waits for the next chunk. *)
Lemma body_interrupted self c model temperature top_p messages functions p
    id pre rest messages' p' :
  open_stream model temperature top_p messages functions p
    = (inr (id, map Next pre ++ KeyboardInterrupt :: rest), messages', p') ->
  Forall (fun c => finishes c = false) pre ->
  pre = [] \/ is_Some use_litellm ->
  leaves c (map text_of pre) = None ->
  get_completion_body self c model temperature top_p messages functions p
  = Run (map text_of pre) Interrupted messages' (with_closed p' id).
Proof.
  intros Hopen Hplain Hflag Hc. unfold get_completion_body. rewrite Hopen.
  unfold consume. cbn zeta. rewrite scan_interrupt by done. cbn [fragments_of].
  by rewrite Hc.
Qed.

(** What the body does when its consumer stops within the text of the
    first chunks. *)
Lemma body_abandoned self b n model temperature top_p messages functions p
    id pre tail messages' p' :
  use_litellm = Some b ->
  open_stream model temperature top_p messages functions p
    = (inr (id, map Next pre ++ tail), messages', p') ->
  Forall (fun c => finishes c = false) pre ->
  n <= length pre ->
  get_completion_body self (Some n) model temperature top_p messages functions p
  = Run (take n (map text_of pre)) Abandoned messages' p'.
Proof.
  intros Hb Hopen Hplain Hn. unfold get_completion_body. rewrite Hopen.
  unfold consume. cbn zeta. rewrite (scan_plain b) by done.
  rewrite fragments_of_yield_all, leaves_app; [done|].
  by rewrite length_map.
Qed.

(** C2, what the code does instead.  A [KeyboardInterrupt] is handled in
    three ways, by where it arrives.  (1) While the call of [completion] at
    handler.py:148 waits, outside the [try]: it propagates to the caller
    and no response is closed.  (2) While the loop waits for the next chunk,
    inside the [try]: the response of this call is closed and the generator
    returns, having yielded the text received so far; the decorator sees a
    generator that returned, so with [caching=true] that partial text is
    committed under the fingerprint of the request.  (3) While the generator
    is suspended at the [yield] of handler.py:183 and its consumer stops
    iterating: the generator is let go of, the [except KeyboardInterrupt]
    branch does not run, and the response is left open. *)
Theorem interrupt_outcomes_by_arrival
    (fuel : nat) (caching : bool) (c : consumer) (model : string)
    (temperature top_p : Z) (messages : list pyval)
    (functions : option (list pyval)) (p : process)
    (res : exn + nat * list event) (messages' : list pyval) (p' : process) :
  open_stream model temperature top_p messages functions p = (res, messages', p') ->
  caching = false \/
    cache_get (cache_entries p)
      (fingerprint model temperature top_p messages functions) = None ->
  let r := get_completion_taking (S fuel) caching c model temperature top_p
             messages functions p in
  (res = inl KeyboardInterruptRaised -> c <> Some 0 ->
   ended r = Raised KeyboardInterruptRaised /\ yielded r = [] /\
   closed (after r) = closed p) /\
  (forall id pre rest,
      res = inr (id, map Next pre ++ KeyboardInterrupt :: rest) ->
      Forall (fun c => finishes c = false) pre ->
      pre = [] \/ is_Some use_litellm ->
      leaves c (map text_of pre) = None ->
      ended r = Interrupted /\ yielded r = map text_of pre /\
      closed (after r) = closed p ++ [id] /\
      (caching = true -> 0 < cache_length ->
       cache_get (cache_entries (after r))
         (fingerprint model temperature top_p messages functions)
       = Some (map text_of pre))) /\
  (forall id pre tail n,
      res = inr (id, map Next pre ++ tail) ->
      Forall (fun c => finishes c = false) pre ->
      is_Some use_litellm ->
      c = Some n -> 0 < n <= length pre ->
      ended r = Abandoned /\ yielded r = take n (map text_of pre) /\
      closed (after r) = closed p /\
      cache_entries (after r) = cache_entries p).
Proof.
  intros Hopen Hmiss r.
  set (F := get_completion_body (get_completion_taking fuel)).
  pose proof Hopen as Hframe.
  apply open_stream_frame in Hframe as (_ & Hcl & _ & Hcache & _).
  assert (Hraw : forall out e q,
             c <> Some 0 -> returned e = false ->
             F c model temperature top_p messages functions p = Run out e messages' q ->
             r = Run out e messages' q).
  { intros out e q Hc He Hbody. subst r.
    rewrite get_completion_taking_unfold by done. fold F.
    destruct caching; [|by rewrite cache_off].
    destruct Hmiss as [?|Hget]; [done|].
    rewrite (cache_miss_discard F _ _ _ _ _ _ _ Hget); [done|]. by rewrite Hbody. }
  split_and!.
  - intros -> Hc.
    rewrite (Hraw [] (Raised KeyboardInterruptRaised) p' Hc eq_refl).
    + by split_and!.
    + subst F. unfold get_completion_body. by rewrite Hopen.
  - intros id pre rest -> Hplain Hflag Hc.
    pose proof (body_interrupted (get_completion_taking fuel) c _ _ _ _ _ _ _ _ _ _ _
                  Hopen Hplain Hflag Hc) as Hbody.
    fold F in Hbody. subst r.
    rewrite get_completion_taking_unfold by by eapply leaves_started.
    fold F. destruct caching.
    + destruct Hmiss as [?|Hget]; [done|].
      rewrite (cache_miss_commit F _ _ _ _ _ _ _ Hget) by by rewrite Hbody.
      rewrite Hbody. cbn. rewrite Hcl. split_and!; try done.
      intros _ Hcap. rewrite Hcache. apply cache_get_drop; [done|].
      rewrite length_app. cbn. lia.
    + rewrite cache_off, Hbody. cbn. rewrite Hcl. by split_and!.
  - intros id pre tail n -> Hplain [b Hb] -> [Hpos Hn].
    rewrite (Hraw (take n (map text_of pre)) Abandoned p').
    + by split_and!.
    + intros [= ->]. lia.
    + done.
    + subst F. by eapply body_abandoned.
Qed.

(** Where the loop stops on a chunk that ends the turn, and with which
    name and arguments. *)
Lemma scan_function_call b pre fin rest :
  use_litellm = Some b ->
  Forall (fun c => finishes c = false) pre ->
  finishes fin = true ->
  scan use_litellm (map Next pre ++ Next fin :: rest) "" ""
  = ScanToolCalls (map text_of pre)
      (default "" (last (name_fragments (tool_calls_of (pre ++ [fin])))))
      (joined (argument_fragments (tool_calls_of (pre ++ [fin])))).
Proof.
  intros Hb Hplain Hfin.
  rewrite (scan_plain b) by done. cbn [scan]. rewrite Hb.
  unfold finishes in Hfin. rewrite Hfin.
  assert (Hacc : forall name arguments,
             match delta_tool_calls fin with
             | Some (tc :: tcs) => accumulate (tc :: tcs) name arguments
             | _ => (name, arguments)
             end = accumulate (default [] (delta_tool_calls fin)) name arguments)
    by (intros; by destruct (delta_tool_calls fin) as [[|tc tcs]|]).
  rewrite Hacc, <- accumulate_app.
  replace (tool_calls_of pre ++ default [] (delta_tool_calls fin))
    with (tool_calls_of (pre ++ [fin])).
  2:{ unfold tool_calls_of. rewrite map_app, concat_app. cbn.
      by rewrite app_nil_r. }
  rewrite accumulate_spec. cbn [fst snd].
  by rewrite yield_all_shape, app_nil_r.
Qed.

(** C4, what the code does instead.  With [use_litellm] unbound, as
    handler.py:14 leaves it, the loop raises [NameError] at handler.py:163
    on the first chunk of the response, however the name and the arguments
    of the function call are split over the chunks [pre] and the chunk [fin]
    that reports the function-call finish reason: no text fragment is
    yielded, and no name and no arguments reach the dispatch. *)
Theorem unbound_flag_loses_every_fragment
    (pre : list chunk) (fin : chunk) (rest : list event) :
  use_litellm = None ->
  finishes fin = true ->
  let scanned := scan use_litellm (map Next pre ++ Next fin :: rest) "" "" in
  scanned = ScanRaise (NameError "use_litellm") [] /\
  fragments_of scanned = [] /\
  forall out name arguments, scanned <> ScanToolCalls out name arguments.
Proof.
  intros Hnone _ scanned.
  assert (Hs : scanned = ScanRaise (NameError "use_litellm") [])
    by (subst scanned; destruct pre; by apply scan_unbound).
  rewrite Hs. by split_and!.
Qed.

(** ** The function-call turn *)

(** The first append of [handle_function_call] makes the test of
    handler.py:115 true, so the newline is always yielded. *)
Lemma handle_function_call_invalid messages name arguments log :
  json_loads arguments = None ->
  handle_function_call messages name arguments log
  = Handled [nl] (Some JSONDecodeError)
      (messages ++ [assistant_function_call name arguments]) log.
Proof.
  intros Hjson. unfold handle_function_call. by rewrite last_snoc, Hjson.
Qed.

Lemma handle_function_call_returns messages name arguments log kw f result :
  json_loads arguments = Some (PDict kw) ->
  get_function name = inr f ->
  f kw = inr result ->
  handle_function_call messages name arguments log
  = Handled
      ([nl] ++ (if show_functions_output
                then ["```text" +:+ nl +:+ result +:+ nl +:+ "```" +:+ nl]
                else []))
      None
      (messages ++ [assistant_function_call name arguments;
                    function_message result name])
      (log ++ [(name, arguments)]).
Proof.
  intros Hjson Hget Hf. unfold handle_function_call.
  rewrite last_snoc, Hjson, Hget, Hf. cbn.
  rewrite <- app_assoc. by destruct show_functions_output.
Qed.

(** With [use_litellm] bound, for a response whose chunks [pre] do not
    end the turn and whose next chunk [fin] reports the function-call finish
    reason, and when the dispatcher returns a value (the accumulated
    arguments parse to an object, the name resolves and the function
    returns): the transcript receives the assistant message with the
    accumulated [function_call] payload followed by the function-role
    message with the returned value, and the rest of the run is one call of
    [self.get_completion], with caching off, on that transcript; an
    interrupt that this call raises is caught by the turn that made it. *)
Lemma bound_flag_turn_appends_and_recurses
    (self : generator) (b : bool) (model : string) (temperature top_p : Z)
    (messages : list pyval) (functions : option (list pyval)) (p : process)
    (id : nat) (pre : list chunk) (fin : chunk) (rest : list event)
    (messages' : list pyval) (p' : process)
    (kw : list (string * pyval)) (f : list (string * pyval) -> exn + string)
    (result : string) :
  use_litellm = Some b ->
  open_stream model temperature top_p messages functions p
    = (inr (id, map Next pre ++ Next fin :: rest), messages', p') ->
  Forall (fun c => finishes c = false) pre ->
  finishes fin = true ->
  let name := default "" (last (name_fragments (tool_calls_of (pre ++ [fin])))) in
  let arguments := joined (argument_fragments (tool_calls_of (pre ++ [fin]))) in
  json_loads arguments = Some (PDict kw) ->
  get_function name = inr f ->
  f kw = inr result ->
  let recursive :=
    self false None model temperature top_p
      (messages' ++ [assistant_function_call name arguments;
                     function_message result name])
      (effective_functions functions)
      (with_dispatched p' (dispatched p' ++ [(name, arguments)])) in
  let echo := if show_functions_output
              then ["```text" +:+ nl +:+ result +:+ nl +:+ "```" +:+ nl] else [] in
  let out := map text_of pre ++ ([nl] ++ echo) ++ yielded recursive in
  get_completion_body self None model temperature top_p messages functions p
  = match ended recursive with
    | Raised KeyboardInterruptRaised =>
        Run out Interrupted (transcript recursive) (with_closed (after recursive) id)
    | _ => Run out (ended recursive) (transcript recursive) (after recursive)
    end.
Proof.
  intros Hb Hopen Hplain Hfin name arguments Hjson Hget Hf recursive echo out.
  unfold get_completion_body. rewrite Hopen. unfold consume. cbn zeta.
  rewrite (scan_function_call b pre fin rest Hb Hplain Hfin).
  fold name arguments. cbn [leaves fragments_of after_taking option_map].
  rewrite (handle_function_call_returns _ _ _ _ kw f result Hjson Hget Hf).
  cbn [hf_raised hf_yielded hf_messages hf_dispatched].
  subst out recursive echo. cbn zeta.
  reflexivity.
Qed.

(** C3, what the code does instead.  With [use_litellm] unbound, as
    handler.py:14 leaves it, a response whose final chunk [fin] reports the
    function-call finish reason never reaches the function-call turn: the
    body raises [NameError] at handler.py:163 on the first chunk.  The
    transcript is the one the call of [completion] left, so neither the
    assistant message nor the function-role message is appended; no function
    is invoked; and [self.get_completion] is not called, the run being the
    same whatever it would do and [completion] having been called once. *)
Theorem function_call_turn_stops_at_unbound_flag
    (self : generator) (c : consumer) (model : string) (temperature top_p : Z)
    (messages : list pyval) (functions : option (list pyval)) (p : process)
    (id : nat) (pre : list chunk) (fin : chunk)
    (messages' : list pyval) (p' : process) :
  use_litellm = None ->
  open_stream model temperature top_p messages functions p
    = (inr (id, map Next pre ++ [Next fin]), messages', p') ->
  finishes fin = true ->
  c <> Some 0 ->
  get_completion_body self c model temperature top_p messages functions p
  = Run [] (Raised (NameError "use_litellm")) messages' p' /\
  dispatched p' = dispatched p /\
  length (completion_calls p') = S (length (completion_calls p)).
Proof.
  intros Hnone Hopen _ Hc.
  pose proof Hopen as Hframe.
  apply open_stream_frame in Hframe as (_ & _ & Hd & _ & Hcalls).
  split_and!; [|done|].
  - unfold get_completion_body. rewrite Hopen. unfold consume. cbn zeta.
    assert (Hs : scan use_litellm (map Next pre ++ [Next fin]) "" ""
                 = ScanRaise (NameError "use_litellm") [])
      by (destruct pre; by apply scan_unbound).
    rewrite Hs. cbn [fragments_of]. by destruct c as [[|n]|].
  - destruct (call_kwargs _ _); [by destruct Hcalls|].
    destruct Hcalls as [-> _]. rewrite length_app. cbn. lia.
Qed.

(** C8, what the code does instead.  With [use_litellm] unbound, as
    handler.py:14 leaves it, a stream that reaches the function-call finish
    with an argument blob that [json.loads] rejects never reaches the
    dispatcher: the run ends with [NameError] on the first chunk, no
    assistant message is appended, nothing is yielded, no function is
    invoked and nothing is cached.  The decoder's error is what
    [handle_function_call] raises when it is called on that blob. *)
Theorem invalid_arguments_never_reach_dispatcher
    (fuel : nat) (caching : bool) (model : string) (temperature top_p : Z)
    (messages : list pyval) (functions : option (list pyval)) (p : process)
    (id : nat) (pre : list chunk) (fin : chunk) (rest : list event)
    (messages' : list pyval) (p' : process) :
  use_litellm = None ->
  open_stream model temperature top_p messages functions p
    = (inr (id, map Next pre ++ Next fin :: rest), messages', p') ->
  finishes fin = true ->
  let name := default "" (last (name_fragments (tool_calls_of (pre ++ [fin])))) in
  let arguments := joined (argument_fragments (tool_calls_of (pre ++ [fin]))) in
  json_loads arguments = None ->
  caching = false \/
    cache_get (cache_entries p)
      (fingerprint model temperature top_p messages functions) = None ->
  let r := get_completion (S fuel) caching model temperature top_p messages functions p in
  ended r = Raised (NameError "use_litellm") /\
  yielded r = [] /\ transcript r = messages' /\
  dispatched (after r) = dispatched p /\
  cache_entries (after r) = cache_entries p /\
  hf_raised (handle_function_call messages' name arguments (dispatched p))
  = Some JSONDecodeError.
Proof.
  intros Hnone Hopen _ name arguments Hjson Hmiss r.
  set (F := get_completion_body (get_completion_taking fuel)).
  assert (Hbody : F None model temperature top_p messages functions p
                  = Run [] (Raised (NameError "use_litellm")) messages' p').
  { subst F. unfold get_completion_body. rewrite Hopen. unfold consume. cbn zeta.
    assert (Hs : scan use_litellm (map Next pre ++ Next fin :: rest) "" ""
                 = ScanRaise (NameError "use_litellm") [])
      by (destruct pre; by apply scan_unbound).
    by rewrite Hs. }
  assert (Hr : r = Run [] (Raised (NameError "use_litellm")) messages' p').
  { subst r. rewrite get_completion_unfold. fold F.
    destruct caching; [|by rewrite cache_off].
    destruct Hmiss as [?|Hget]; [done|].
    rewrite (cache_miss_discard F _ _ _ _ _ _ _ Hget); [done|]. by rewrite Hbody. }
  apply open_stream_frame in Hopen as (_ & _ & Hd & Hcache & _).
  rewrite Hr. cbn. split_and!; try done.
  by rewrite handle_function_call_invalid.
Qed.


(** ** The shared mapping across calls *)

Lemma effective_functions_idem functions :
  effective_functions (effective_functions functions) = effective_functions functions.
Proof. unfold effective_functions. by destruct (_ || _). Qed.

Lemma offer_tools_idem functions extra :
  offer_tools functions (offer_tools functions extra) = offer_tools functions extra.
Proof.
  destruct functions as [[|f fs]|]; cbn [offer_tools]; try done.
  apply map_eq. intros k. rewrite !lookup_insert.
  repeat case_decide; done.
Qed.

(** The update is never undone: once a turn has stored the tool keys they
    stay in the mapping for the calls that follow. *)
Lemma body_settles self c model temperature top_p messages functions p :
  settling self ->
  additional_kwargs
    (after (get_completion_body self c model temperature top_p messages functions p))
  = offer_tools (effective_functions functions) (additional_kwargs p).
Proof.
  intros Hself. unfold get_completion_body.
  destruct (open_stream _ _ _ _ _ _) as [[res messages'] p'] eqn:Hopen.
  apply open_stream_frame in Hopen as (Ha & _).
  destruct res as [e|[id response]]; cbn; [done|].
  unfold consume. cbn zeta. destruct (leaves c _); [done|].
  destruct (scan _ _ _ _); cbn; try done.
  destruct (leaves _ _) as [taken|]; cbn.
  { by destruct (length taken <=? 1)%nat. }
  destruct (hf_raised _) as [e|]; cbn; [by destruct e|].
  match goal with |- context [self ?a ?b ?c ?d ?e ?f ?g ?q] =>
    pose proof (Hself a b c d e f g q) as Hrec;
    set (r := self a b c d e f g q) in * end.
  cbn in Hrec.
  assert (Hr : additional_kwargs (after r)
               = offer_tools (effective_functions functions) (additional_kwargs p)).
  { destruct Hrec as [H|H]; rewrite H; [done|].
    by rewrite Ha, effective_functions_idem, offer_tools_idem. }
  destruct (ended r) as [| |e| |]; cbn; try exact Hr.
  destruct e; cbn; exact Hr.
Qed.

Lemma get_completion_settling fuel : settling (get_completion_taking fuel).
Proof.
  induction fuel as [|fuel IH]; intros caching c model temperature top_p messages
    functions p; cbn [get_completion_taking]; [by left|].
  destruct (decide (c = Some 0)) as [->|Hc]; [by left|].
  assert (Hgoal :
    let a := additional_kwargs
               (after (cache (get_completion_body (get_completion_taking fuel))
                         caching c model temperature top_p messages functions p)) in
    a = additional_kwargs p \/
    a = offer_tools (effective_functions functions) (additional_kwargs p)).
  { unfold cache. destruct caching; [|right; by apply body_settles].
    destruct (cache_get _ _); cbn.
    { destruct (leaves c _); by left. }
    pose proof (body_settles (get_completion_taking fuel) c model temperature top_p
                  messages functions p IH) as H.
    destruct (returned _); cbn; by right. }
  by destruct c as [[|n]|].
Qed.

Lemma effective_functions_overridden functions :
  role_name = SHELL \/ role_name = CODE \/ role_name = DESCRIBE_SHELL ->
  effective_functions functions = None.
Proof.
  unfold effective_functions.
  intros [<-|[<-|<-]]; rewrite String.eqb_refl; by rewrite ?orb_true_r.
Qed.

Lemma effective_functions_kept functions :
  role_name <> SHELL -> role_name <> CODE -> role_name <> DESCRIBE_SHELL ->
  effective_functions functions = functions.
Proof.
  unfold effective_functions. intros H1 H2 H3.
  apply String.eqb_neq in H1, H2, H3. by rewrite H1, H2, H3.
Qed.

(** Under the shell-command, code or describe-shell role the [functions]
    argument is discarded: the run is the run with [functions=None], the
    call stores nothing in the shared mapping, and the request it sends
    takes its [tools], [tool_choice] and [parallel_tool_calls] entries from
    the mapping as it stood before the call. *)
Lemma overriding_roles_discard_functions
    (fuel : nat) (model : string) (temperature top_p : Z)
    (messages : list pyval) (functions : option (list pyval)) (p : process) :
  role_name = SHELL \/ role_name = CODE \/ role_name = DESCRIBE_SHELL ->
  keywords_free (additional_kwargs p) = true ->
  let r := get_completion (S fuel) false model temperature top_p messages functions p in
  effective_functions functions = None /\
  r = get_completion (S fuel) false model temperature top_p messages None p /\
  additional_kwargs (after r) = additional_kwargs p /\
  exists kwargs,
    completion_calls (after r) !! length (completion_calls p) = Some kwargs /\
    forall k, k ∈ ["tools"; "tool_choice"; "parallel_tool_calls"] ->
              kwargs !! k = additional_kwargs p !! k.
Proof.
  intros Hrole Hfree r.
  pose proof (effective_functions_overridden functions Hrole) as Heff.
  pose proof (effective_functions_overridden None Hrole) as Heff'.
  split_and!.
  - exact Heff.
  - subst r. rewrite !get_completion_unfold, !cache_off.
    unfold get_completion_body, open_stream. by rewrite Heff, Heff'.
  - subst r. rewrite get_completion_unfold, cache_off.
    rewrite body_settles by apply get_completion_settling. by rewrite Heff.
  - eexists. split.
    + subst r. rewrite get_completion_unfold, cache_off.
      apply body_request; [apply get_completion_growing|done].
    + intros k Hk. rewrite Heff. cbn [offer_tools].
      by apply lookup_explicit_union, tool_keys_not_explicit.
Qed.

(** C6.  Under any other role, a call with a non-empty list of function
    schemas sends a request with [tool_choice="auto"], the schemas as
    [tools] and [parallel_tool_calls=False]; and over the whole run no more
    functions are invoked than [completion] is called, one per turn at
    most. *)
Theorem supplied_functions_request_auto_serial
    (fuel : nat) (model : string) (temperature top_p : Z)
    (messages : list pyval) (f : pyval) (fs : list pyval) (p : process) :
  role_name <> SHELL -> role_name <> CODE -> role_name <> DESCRIBE_SHELL ->
  keywords_free (additional_kwargs p) = true ->
  let r := get_completion (S fuel) false model temperature top_p messages
             (Some (f :: fs)) p in
  (exists kwargs,
     completion_calls (after r) !! length (completion_calls p) = Some kwargs /\
     kwargs !! "tool_choice" = Some (PStr "auto") /\
     kwargs !! "tools" = Some (PList (f :: fs)) /\
     kwargs !! "parallel_tool_calls" = Some (PBool false)) /\
  length (dispatched (after r)) - length (dispatched p)
    <= length (completion_calls (after r)) - length (completion_calls p).
Proof.
  intros H1 H2 H3 Hfree r. split.
  - eexists. split.
    + subst r. rewrite get_completion_unfold, cache_off.
      apply body_request; [apply get_completion_growing|done].
    + rewrite (effective_functions_kept _ H1 H2 H3). cbn [offer_tools].
      rewrite !lookup_explicit_union
        by (apply tool_keys_not_explicit, list_elem_of_In; cbn; tauto).
      rewrite !lookup_insert. by repeat case_decide.
  - destruct (get_completion_growing (S fuel) false None model temperature top_p
                messages (Some (f :: fs)) p) as (_ & _ & _ & Hcount).
    fold (get_completion (S fuel) false) in Hcount. fold r in Hcount. lia.
Qed.

(** C9, what the code does instead.  Under a role that does not override,
    a call that supplies function schemas leaves the three tool keys in the
    shared mapping, and the next call in the same process, made with
    [functions=None], sends them to the vendor again. *)
Theorem tool_keys_leak_into_later_requests
    (fuel fuel' : nat) (model model' : string)
    (temperature top_p temperature' top_p' : Z)
    (messages messages' : list pyval) (f : pyval) (fs : list pyval) (p : process) :
  role_name <> SHELL -> role_name <> CODE -> role_name <> DESCRIBE_SHELL ->
  keywords_free (additional_kwargs p) = true ->
  let first := get_completion (S fuel) false model temperature top_p messages
                 (Some (f :: fs)) p in
  let second := get_completion (S fuel') false model' temperature' top_p' messages'
                  None (after first) in
  exists kwargs,
    completion_calls (after second) !! length (completion_calls (after first))
      = Some kwargs /\
    kwargs !! "tool_choice" = Some (PStr "auto") /\
    kwargs !! "tools" = Some (PList (f :: fs)) /\
    kwargs !! "parallel_tool_calls" = Some (PBool false).
Proof.
  intros H1 H2 H3 Hfree first second.
  assert (Ha : additional_kwargs (after first)
               = offer_tools (Some (f :: fs)) (additional_kwargs p)).
  { subst first. rewrite get_completion_unfold, cache_off.
    rewrite body_settles by apply get_completion_settling.
    by rewrite (effective_functions_kept _ H1 H2 H3). }
  eexists. split.
  - subst second. rewrite get_completion_unfold, cache_off.
    apply body_request; [apply get_completion_growing|].
    rewrite Ha. by apply keywords_free_offer_tools.
  - rewrite (effective_functions_kept _ H1 H2 H3), Ha. cbn [offer_tools].
    rewrite !lookup_explicit_union
      by (apply tool_keys_not_explicit, list_elem_of_In; cbn; tauto).
    rewrite !lookup_insert. by repeat case_decide.
Qed.


(** ** The adapter *)

Import Anthropic.

Lemma dict_get_set_eq d k v : dict_get (dict_set d k v) k = Some v.
Proof.
  induction d as [|[k' v'] d IH]; cbn.
  - by rewrite String.eqb_refl.
  - destruct (String.eqb k' k) eqn:E; cbn; by rewrite E.
Qed.

Lemma dict_get_set_ne d k k' v : k <> k' -> dict_get (dict_set d k v) k' = dict_get d k'.
Proof.
  intros Hne. induction d as [|[k0 v0] d IH]; cbn.
  - apply String.eqb_neq in Hne. by rewrite Hne.
  - destruct (String.eqb k0 k) eqn:E; cbn; [|by rewrite IH].
    apply String.eqb_eq in E as ->.
    apply String.eqb_neq in Hne. by rewrite Hne.
Qed.

Lemma well_formed_inv message :
  well_formed message = true ->
  exists d r c, message = PDict d /\ dict_get d "role" = Some r /\
                dict_get d "content" = Some c.
Proof.
  destruct message as [| | | | | |d]; try done. cbn.
  rewrite andb_true_iff, !bool_decide_eq_true. intros [[r Hr] [c Hc]]. eauto 6.
Qed.

(** On well-formed messages the loop never raises: it keeps the last
    system message and wraps every other message. *)
Lemma adapt_loop_spec messages system_message acc :
  Forall (fun m => well_formed m = true) messages ->
  adapt_loop messages system_message acc
  = (inr (default system_message (last (filter (fun m => is_system_dict m = true) messages)),
          acc ++ without_system messages),
     rewritten messages).
Proof.
  intros Hwf. revert system_message acc.
  induction Hwf as [|m messages Hm Hwf IH]; intros system_message acc.
  - cbn. by rewrite app_nil_r.
  - apply well_formed_inv in Hm as (d & r & c & -> & Hr & Hc).
    cbn [adapt_loop py_getitem]. rewrite Hr.
    unfold without_system, rewritten. cbn [map filter].
    assert (Hsys : is_system_dict (PDict d) = py_eq_str r "system")
      by (cbn; by rewrite Hr).
    rewrite filter_cons, (filter_cons (fun m => is_system_dict m = false)).
    rewrite Hsys. destruct (py_eq_str r "system") eqn:E.
    + rewrite IH. rewrite decide_True, decide_False by done.
      f_equal. f_equal. f_equal.
      destruct (filter _ messages) as [|x l] eqn:Ef; [done|].
      rewrite last_cons_cons.
      destruct (last (x :: l)) eqn:El; [done|]. by apply last_None in El.
    + rewrite Hc, IH. rewrite decide_False, decide_True by done.
      assert (Hw : wrapped (PDict d) = py_setitem (PDict d) "content" (text_block c))
        by (unfold wrapped; cbn [py_getitem]; by rewrite Hc).
      cbn [map]. rewrite Hw, <- app_assoc. done.
Qed.

(** The adapter on a call shaped like those of [get_completion]: keywords
    only, no [system] keyword, the transcript under [messages]. *)
Lemma adapt_shape (kwargs : gmap string pyval) (messages : list pyval) :
  kwargs !! "system" = None ->
  kwargs !! "messages" = Some (PList messages) ->
  Forall (fun m => well_formed m = true) messages ->
  _adapt_parameters_to_anthropic [] kwargs
  = let system_message :=
      default PNone (last (filter (fun m => is_system_dict m = true) messages)) in
    let kwargs1 :=
      <["messages" := PList (without_system messages)]> (delete "messages" kwargs) in
    match py_getitem system_message "content" with
    | inl e => Adapted (inl e) (Some (rewritten messages))
    | inr c =>
        match kwargs !! "model" with
        | None => Adapted (inl (KeyError "model")) (Some (rewritten messages))
        | Some m =>
            if py_eq_str m asserted_model
            then Adapted (inr ([], <["system" := c]> kwargs1)) (Some (rewritten messages))
            else Adapted (inl (AssertionError m)) (Some (rewritten messages))
        end
    end.
Proof.
  intros Hsys Hmsgs Hwf. unfold _adapt_parameters_to_anthropic.
  rewrite Hsys, Hmsgs. cbn [existsb].
  change (default PNone (Some (PList messages))) with (PList messages).
  rewrite bool_decide_eq_false_2 by (by intros [? ?]).
  cbn match. rewrite adapt_loop_spec by done. cbn zeta. cbn [app].
  destruct (py_getitem _ "content") as [e|c]; [done|].
  by rewrite !lookup_insert_ne, lookup_delete_ne by done.
Qed.


Lemma wrapped_spec message :
  well_formed message = true ->
  exists c, py_getitem message "content" = inr c /\
            py_getitem (wrapped message) "content" = inr (text_block c) /\
            py_getitem (wrapped message) "role" = py_getitem message "role" /\
            is_system_dict (wrapped message) = is_system_dict message.
Proof.
  intros Hwf. apply well_formed_inv in Hwf as (d & r & c & -> & Hr & Hc).
  exists c. unfold wrapped. cbn. rewrite Hc. cbn.
  by rewrite dict_get_set_eq, dict_get_set_ne, Hr.
Qed.

Lemma last_system_well_formed messages system_message :
  Forall (fun m => well_formed m = true) messages ->
  last (filter (fun m => is_system_dict m = true) messages) = Some system_message ->
  exists c, py_getitem system_message "content" = inr c.
Proof.
  intros Hwf Hlast. apply last_Some_elem_of, list_elem_of_filter in Hlast as [_ Hin].
  rewrite Forall_forall in Hwf.
  apply Hwf, well_formed_inv in Hin as (d & r & c & -> & _ & Hc).
  exists c. cbn. by rewrite Hc.
Qed.

(** C7 as the code has it.  Under the Anthropic client, for a request
    without a [system] keyword whose transcript holds well-formed messages
    with a system message among them, and whose model is the one the
    adapter asserts: the request is dispatched to the client with every
    system message taken out of [messages], the content of the last system
    message under the separate keyword [system], the content of every other
    message (whatever its role) wrapped as one text block, and all other
    keywords untouched. *)
Theorem adapter_extracts_system_and_wraps
    (kwargs : gmap string pyval) (messages : list pyval) (p : process)
    (system_message : pyval) :
  backend = AnthropicClient ->
  kwargs !! "system" = None ->
  kwargs !! "messages" = Some (PList messages) ->
  Forall (fun m => well_formed m = true) messages ->
  last (filter (fun m => is_system_dict m = true) messages) = Some system_message ->
  kwargs !! "model" = Some (PStr asserted_model) ->
  exists c kwargs',
    py_getitem system_message "content" = inr c /\
    (completion kwargs messages p).1.1
      = inr (length (completion_calls p),
             client (length (completion_calls p)) kwargs') /\
    kwargs' !! "system" = Some c /\
    kwargs' !! "messages" = Some (PList (without_system messages)) /\
    (forall k, k <> "system" -> k <> "messages" -> kwargs' !! k = kwargs !! k) /\
    Forall (fun m => is_system_dict m = false) (without_system messages) /\
    Forall (fun m => exists c', py_getitem m "content" = inr c' /\
                       py_getitem (wrapped m) "content" = inr (text_block c') /\
                       py_getitem (wrapped m) "role" = py_getitem m "role")
      (filter (fun m => is_system_dict m = false) messages).
Proof.
  intros Hbackend Hsys Hmsgs Hwf Hlast Hmodel.
  destruct (last_system_well_formed _ _ Hwf Hlast) as [c Hc].
  exists c, (<["system" := c]>
               (<["messages" := PList (without_system messages)]>
                  (delete "messages" kwargs))).
  assert (Hnonsys : Forall (fun m => well_formed m = true /\ is_system_dict m = false)
                      (filter (fun m => is_system_dict m = false) messages)).
  { apply Forall_forall. intros m [Hm Hin]%list_elem_of_filter.
    rewrite Forall_forall in Hwf. auto. }
  split_and!.
  - exact Hc.
  - unfold completion. rewrite Hbackend, (adapt_shape kwargs messages) by done.
    cbn zeta. rewrite Hlast. cbn [default from_option id].
    rewrite Hc, Hmodel. unfold py_eq_str. by rewrite String.eqb_refl.
  - by rewrite lookup_insert_eq.
  - by rewrite lookup_insert_ne, lookup_insert_eq.
  - intros k Hk1 Hk2. by rewrite !lookup_insert_ne, lookup_delete_ne.
  - unfold without_system. apply Forall_fmap.
    eapply Forall_impl; [exact Hnonsys|]. intros m [Hm Hns]. cbn.
    destruct (wrapped_spec m Hm) as (? & _ & _ & _ & ->). exact Hns.
  - eapply Forall_impl; [exact Hnonsys|]. intros m [Hm _].
    destruct (wrapped_spec m Hm) as (c' & ? & ? & ? & _). eauto.
Qed.

(** C10.  Under the Anthropic client, on a request shaped as
    [get_completion] builds it (keywords only, no [system] keyword,
    well-formed messages under [messages], a [model]): without a system
    message the adapter fails on subscripting [None]; with a model other
    than the asserted one it fails too, on that subscript or on the
    assertion; in both cases nothing is dispatched.  With exactly one
    system message and the asserted model it does not fail and the request
    is dispatched. *)
Theorem adapter_needs_system_message_and_model
    (kwargs : gmap string pyval) (messages : list pyval) (p : process) (m : pyval) :
  backend = AnthropicClient ->
  kwargs !! "system" = None ->
  kwargs !! "messages" = Some (PList messages) ->
  Forall (fun m => well_formed m = true) messages ->
  kwargs !! "model" = Some m ->
  let systems := filter (fun m => is_system_dict m = true) messages in
  let outcome := (completion kwargs messages p).1.1 in
  (systems = [] -> outcome = inl (TypeError "object is not subscriptable")) /\
  (py_eq_str m asserted_model = false ->
   outcome = inl (TypeError "object is not subscriptable") \/
   outcome = inl (AssertionError m)) /\
  (length systems = 1 -> py_eq_str m asserted_model = true ->
   exists kwargs',
     outcome = inr (length (completion_calls p),
                    client (length (completion_calls p)) kwargs')).
Proof.
  intros Hbackend Hsys Hmsgs Hwf Hmodel systems outcome.
  assert (Hout : outcome
                 = match last systems with
                   | None => inl (TypeError "object is not subscriptable")
                   | Some _ =>
                       if py_eq_str m asserted_model
                       then inr (length (completion_calls p),
                                 client (length (completion_calls p))
                                   (<["system" :=
                                        match py_getitem (default PNone (last systems))
                                                "content" with
                                        | inr c => c
                                        | inl _ => PNone
                                        end]>
                                      (<["messages" := PList (without_system messages)]>
                                         (delete "messages" kwargs))))
                       else inl (AssertionError m)
                   end).
  { subst outcome. unfold completion.
    rewrite Hbackend, (adapt_shape kwargs messages) by done. cbn zeta.
    fold systems. destruct (last systems) as [sm|] eqn:Hlast; [|done].
    destruct (last_system_well_formed _ _ Hwf Hlast) as [c Hc].
    cbn [default from_option id]. rewrite Hc, Hmodel.
    by destruct (py_eq_str m asserted_model). }
  rewrite Hout. split_and!.
  - by intros ->.
  - intros ->. destruct (last systems); auto.
  - intros Hone ->. destruct systems as [|sm [|? ?]]; try done. cbn. eauto.
Qed.


(** ** Further properties of the engine *)

(** X1.  A response made only of chunks that do not report the
    function-call finish reason is streamed through ([use_litellm] bound,
    caching off): the run ends exhausted having yielded the content of every
    chunk in order, an absent content as the empty string; [completion] was
    called once, no function was invoked, no response closed, and the
    transcript is the one the call of [completion] left. *)
Theorem plain_stream_is_yielded
    (fuel : nat) (b : bool) (model : string) (temperature top_p : Z)
    (messages : list pyval) (functions : option (list pyval)) (p : process)
    (id : nat) (chunks : list chunk) (messages' : list pyval) (p' : process) :
  use_litellm = Some b ->
  open_stream model temperature top_p messages functions p
    = (inr (id, map Next chunks), messages', p') ->
  Forall (fun c => finishes c = false) chunks ->
  let r := get_completion (S fuel) false model temperature top_p messages functions p in
  ended r = Exhausted /\
  yielded r = map (fun c => default "" (delta_content c)) chunks /\
  transcript r = messages' /\
  length (completion_calls (after r)) = S (length (completion_calls p)) /\
  dispatched (after r) = dispatched p /\
  closed (after r) = closed p.
Proof.
  intros Hb Hopen Hplain r.
  assert (Hr : r = Run (map text_of chunks) Exhausted messages' p').
  { subst r. rewrite get_completion_unfold, cache_off.
    unfold get_completion_body. rewrite Hopen. unfold consume.
    rewrite <- (app_nil_r (map Next chunks)), (scan_plain b) by done.
    cbn [scan]. by rewrite yield_all_shape, app_nil_r. }
  apply open_stream_frame in Hopen as (_ & Hcl & Hd & _ & Hcalls).
  rewrite Hr. cbn. split_and!; try done.
  destruct (call_kwargs _ _); [by destruct Hcalls|].
  destruct Hcalls as [-> _]. rewrite length_app. cbn. lia.
Qed.

(** X2.  Whatever happens in [handle_function_call], the assistant
    message with the [function_call] payload is appended and the newline is
    yielded first.  If it raises, nothing else was appended; if it returns,
    the arguments parsed to an object, the name resolved, the function
    returned, its invocation is logged, and the function-role message with
    the returned value is the last message of the transcript. *)
Theorem handle_function_call_outcomes
    (messages : list pyval) (name arguments : string) (log : list (string * string)) :
  let h := handle_function_call messages name arguments log in
  (exists more, hf_yielded h = nl :: more) /\
  match hf_raised h with
  | Some e =>
      hf_messages h = messages ++ [assistant_function_call name arguments] /\
      (e = JSONDecodeError /\ json_loads arguments = None /\ hf_dispatched h = log \/
       dispatch_raises name arguments e)
  | None =>
      exists kw f result,
        json_loads arguments = Some (PDict kw) /\ get_function name = inr f /\
        f kw = inr result /\
        hf_messages h = messages ++ [assistant_function_call name arguments;
                                     function_message result name] /\
        hf_dispatched h = log ++ [(name, arguments)]
  end.
Proof.
  unfold handle_function_call, dispatch_raises. cbn zeta. rewrite last_snoc.
  cbn [py_getitem assistant_function_call dict_get String.eqb Ascii.eqb
       Bool.eqb py_eq_str].
  destruct (json_loads arguments) as [v|] eqn:Hjson; cbn.
  { destruct (get_function name) as [e|f] eqn:Hget; cbn.
    - split; [by eexists|]. split; [done|]. right. left. eauto.
    - destruct v as [| | | | | |kw]; cbn;
        try (split; [by eexists|]; split; [done|]; right; right; left;
             eexists _, f; split_and!; first [done|by intros ?]).
      destruct (f kw) as [e|result] eqn:Hf; cbn.
      + split; [by eexists|]. split; [done|]. right. right. right. eauto 6.
      + split; [destruct show_functions_output; by eexists|].
        exists kw, f, result. rewrite <- app_assoc. by split_and!. }
  split; [by eexists|]. split; [done|]. left. by split_and!.
Qed.


Lemma handle_function_call_raises messages name arguments log e :
  dispatch_raises name arguments e ->
  exists log',
    handle_function_call messages name arguments log
    = Handled [nl] (Some e) (messages ++ [assistant_function_call name arguments]) log' /\
    (log' = log \/ log' = log ++ [(name, arguments)]).
Proof.
  unfold handle_function_call. rewrite last_snoc.
  cbn [py_getitem assistant_function_call dict_get String.eqb Ascii.eqb
       Bool.eqb py_eq_str].
  intros [(v & -> & ->)|[(v & f & -> & -> & Hv & ->)|(kw & f & -> & -> & Hf)]].
  - eauto.
  - destruct v; eauto. by destruct (Hv d).
  - rewrite Hf. eauto.
Qed.

(** When [handle_function_call] raises, it has yielded the newline and
    appended the assistant message only. *)
Lemma handle_function_call_raised messages name arguments log e :
  hf_raised (handle_function_call messages name arguments log) = Some e ->
  exists log',
    handle_function_call messages name arguments log
    = Handled [nl] (Some e) (messages ++ [assistant_function_call name arguments]) log' /\
    (log' = log \/ log' = log ++ [(name, arguments)]).
Proof.
  unfold handle_function_call. rewrite last_snoc.
  cbn [py_getitem assistant_function_call dict_get String.eqb Ascii.eqb
       Bool.eqb py_eq_str].
  destruct (json_loads arguments) as [v|]; [|intros [= <-]; by eauto].
  destruct (get_function name) as [e'|f]; [intros [= <-]; by eauto|].
  destruct v as [| | | | | |kw]; try (intros [= <-]; by eauto).
  destruct (f kw) as [e'|result]; cbn; [intros [= <-]; by eauto|done].
Qed.

(** X3.  With [use_litellm] bound, when the loop reaches a function-call
    finish and [handle_function_call] raises (the arguments do not parse,
    the name does not resolve, the parsed value is not an object, or the
    function itself raises): the run has yielded the text so far and the
    newline, only the assistant message has been appended, [completion] is
    not called again and at most the one failed invocation is logged.  An
    error other than [KeyboardInterrupt] reaches the caller unchanged and no
    response is closed; a [KeyboardInterrupt] raised by the function is
    caught by the [except] branch of handler.py:184-185, which closes the
    response of the turn, and the generator returns. *)
Theorem dispatch_errors_surface
    (fuel : nat) (b : bool) (model : string) (temperature top_p : Z)
    (messages : list pyval) (functions : option (list pyval)) (p : process)
    (id : nat) (pre : list chunk) (fin : chunk) (rest : list event)
    (messages' : list pyval) (p' : process) (e : exn) :
  use_litellm = Some b ->
  open_stream model temperature top_p messages functions p
    = (inr (id, map Next pre ++ Next fin :: rest), messages', p') ->
  Forall (fun c => finishes c = false) pre ->
  finishes fin = true ->
  let name := default "" (last (name_fragments (tool_calls_of (pre ++ [fin])))) in
  let arguments := joined (argument_fragments (tool_calls_of (pre ++ [fin]))) in
  hf_raised (handle_function_call messages' name arguments (dispatched p)) = Some e ->
  let r := get_completion (S fuel) false model temperature top_p messages functions p in
  yielded r = map text_of pre ++ [nl] /\
  transcript r = messages' ++ [assistant_function_call name arguments] /\
  completion_calls (after r) = completion_calls p' /\
  (dispatched (after r) = dispatched p \/
   dispatched (after r) = dispatched p ++ [(name, arguments)]) /\
  (e <> KeyboardInterruptRaised ->
   ended r = Raised e /\ closed (after r) = closed p) /\
  (e = KeyboardInterruptRaised ->
   ended r = Interrupted /\ closed (after r) = closed p ++ [id]).
Proof.
  intros Hb Hopen Hplain Hfin name arguments Hraise r.
  pose proof Hopen as Hframe.
  apply open_stream_frame in Hframe as (_ & Hcl & Hd & _ & _).
  rewrite <- Hd in Hraise.
  destruct (handle_function_call_raised messages' name arguments (dispatched p') e Hraise)
    as (log' & Hh & Hlog).
  assert (Hr : r = match e with
                   | KeyboardInterruptRaised =>
                       Run (map text_of pre ++ [nl]) Interrupted
                         (messages' ++ [assistant_function_call name arguments])
                         (with_closed (with_dispatched p' log') id)
                   | _ =>
                       Run (map text_of pre ++ [nl]) (Raised e)
                         (messages' ++ [assistant_function_call name arguments])
                         (with_dispatched p' log')
                   end).
  { subst r. rewrite get_completion_unfold, cache_off.
    unfold get_completion_body. rewrite Hopen. unfold consume. cbn zeta.
    rewrite (scan_function_call b pre fin rest Hb Hplain Hfin).
    fold name arguments. cbn [leaves fragments_of after_taking option_map].
    rewrite Hh. cbn [hf_raised hf_yielded hf_messages hf_dispatched].
    by destruct e. }
  rewrite Hr, <- Hd, <- Hcl.
  destruct e; cbn; split_and!; try done; by intros [].
Qed.

Lemma handle_function_call_messages messages name arguments log :
  let h := handle_function_call messages name arguments log in
  (exists e, hf_raised h = Some e /\
             hf_messages h = messages ++ [assistant_function_call name arguments]) \/
  (exists result,
     hf_raised h = None /\
     hf_messages h = messages ++ [assistant_function_call name arguments;
                                  function_message result name]).
Proof.
  unfold handle_function_call. cbn zeta.
  destruct (json_loads arguments) as [v|]; [|left; by eauto].
  destruct (get_function name) as [e|f]; [left; by eauto|].
  destruct v as [| | | | | |kw]; try (left; by eauto).
  destruct (f kw) as [e|result]; cbn; [left; by eauto|].
  right. exists result. by rewrite <- app_assoc.
Qed.

Lemma open_stream_messages model temperature top_p messages functions p res messages' p' :
  backend <> AnthropicClient ->
  open_stream model temperature top_p messages functions p = (res, messages', p') ->
  messages' = messages.
Proof.
  intros Hb. unfold open_stream, completion.
  destruct (call_kwargs _ _); [by intros [= _ <- _]|].
  destruct backend; try done; cbn; destruct (call_interrupted _);
    by intros [= _ <- _].
Qed.

Lemma transcript_grows_taking fuel caching c model temperature top_p messages
    functions p :
  backend <> AnthropicClient ->
  exists added,
    transcript (get_completion_taking fuel caching c model temperature top_p
                  messages functions p) = messages ++ added /\
    Forall (fun m => turn_message m = true) added.
Proof.
  intros Hb.
  revert caching c model temperature top_p messages functions p.
  induction fuel as [|fuel IH]; intros caching c model temperature top_p messages
    functions p; cbn [get_completion_taking].
  { exists []. by rewrite app_nil_r. }
  destruct (decide (c = Some 0)) as [->|Hc].
  { exists []. by rewrite app_nil_r. }
  assert (Hbody : exists added,
             transcript (get_completion_body (get_completion_taking fuel) c model
                           temperature top_p messages functions p)
             = messages ++ added /\
             Forall (fun m => turn_message m = true) added).
  { unfold get_completion_body.
    destruct (open_stream _ _ _ _ _ _) as [[res messages'] p'] eqn:Hopen.
    apply open_stream_messages in Hopen as ->; [|done].
    destruct res as [e|[id response]]; cbn.
    { exists []. by rewrite app_nil_r. }
    unfold consume. cbn zeta.
    destruct (leaves c _); cbn; [exists []; by rewrite app_nil_r|].
    destruct (scan _ _ _ _) as [out|out|e out|out name arguments];
      cbn; try (exists []; by rewrite app_nil_r).
    destruct (leaves _ _) as [taken|]; cbn.
    { exists [assistant_function_call name arguments]. split; [done|].
      by repeat constructor. }
    destruct (handle_function_call_messages messages name arguments (dispatched p'))
      as [(e & -> & ->)|(result & -> & ->)]; cbn.
    { exists [assistant_function_call name arguments].
      destruct e; cbn; (split; [done|]); by repeat constructor. }
    match goal with
    | |- context [get_completion_taking fuel ?a ?b ?c ?d ?e ?f ?g ?q] =>
        destruct (IH a b c d e f g q) as (added & Hadded & Hturn);
        set (r := get_completion_taking fuel a b c d e f g q) in *
    end.
    exists ([assistant_function_call name arguments;
             function_message result name] ++ added).
    split; [|cbn; by repeat constructor].
    assert (Ht : transcript r
                 = messages ++ [assistant_function_call name arguments;
                                function_message result name] ++ added)
      by (by rewrite Hadded, <- app_assoc).
    destruct (ended r) as [| |e| |]; cbn; try exact Ht. by destruct e. }
  assert (Hcache : exists added,
             transcript (cache (get_completion_body (get_completion_taking fuel))
                           caching c model temperature top_p messages functions p)
             = messages ++ added /\
             Forall (fun m => turn_message m = true) added).
  { unfold cache. destruct caching; [|exact Hbody].
    destruct (cache_get _ _); cbn.
    { destruct (leaves c _); cbn; exists []; by rewrite app_nil_r. }
    destruct (returned _); cbn; exact Hbody. }
  by destruct c as [[|n]|].
Qed.

(** X4.  Under the LiteLLM and OpenAI clients a run never rewrites or
    removes a message of the transcript it was given: what it returns is
    that transcript followed by messages of role [assistant] or [function]
    only (those of the function-call turns). *)
Theorem transcript_only_grows
    (fuel : nat) (caching : bool) (model : string) (temperature top_p : Z)
    (messages : list pyval) (functions : option (list pyval)) (p : process) :
  backend <> AnthropicClient ->
  let r := get_completion fuel caching model temperature top_p messages functions p in
  exists added,
    transcript r = messages ++ added /\
    Forall (fun m => turn_message m = true) added.
Proof. intros Hb. by apply transcript_grows_taking. Qed.

(** A run closes one response of its own when it ends by the return of the
    [except] branch, and none otherwise. *)
Lemma close_taking fuel caching c model temperature top_p messages functions p :
  let r := get_completion_taking fuel caching c model temperature top_p messages
             functions p in
  (ended r = Interrupted ->
   exists id, closed (after r) = closed p ++ [id] /\
              length (completion_calls p) <= id < length (completion_calls (after r))) /\
  (ended r <> Interrupted -> closed (after r) = closed p).
Proof.
  cbn zeta. revert caching c model temperature top_p messages functions p.
  induction fuel as [|fuel IH]; intros caching c model temperature top_p messages
    functions p; cbn [get_completion_taking].
  { cbn. split; [done|by intros _]. }
  destruct (decide (c = Some 0)) as [->|Hc].
  { cbn. split; [done|by intros _]. }
  set (F := get_completion_body (get_completion_taking fuel)).
  assert (Hbody :
    let r := F c model temperature top_p messages functions p in
    (ended r = Interrupted ->
     exists id, closed (after r) = closed p ++ [id] /\
                length (completion_calls p) <= id
                  < length (completion_calls (after r))) /\
    (ended r <> Interrupted -> closed (after r) = closed p)).
  { subst F. cbn zeta. unfold get_completion_body.
    destruct (open_stream _ _ _ _ _ _) as [[res messages'] p'] eqn:Hopen.
    apply open_stream_frame in Hopen as (_ & Hcl & _ & _ & Hcalls).
    destruct res as [e|[id response]]; cbn; [split; [done|by intros _]|].
    destruct (call_kwargs _ _); [by destruct Hcalls|].
    destruct Hcalls as [Hc' Hid]. specialize (Hid id response eq_refl). subst id.
    assert (Hlen : length (completion_calls p') = S (length (completion_calls p)))
      by (rewrite Hc', length_app; cbn; lia).
    unfold consume. cbn zeta.
    destruct (leaves c _); cbn; [split; [done|by intros _]|].
    destruct (scan _ _ _ _) as [out|out|e out|out name arguments]; cbn.
    - split; [done|by intros _].
    - split; [intros _|done]. eexists. rewrite Hcl. split; [done|lia].
    - split; [done|by intros _].
    - destruct (leaves _ _) as [taken|]; cbn.
      { split; [done|intros _]. by destruct (length taken <=? 1)%nat. }
      destruct (hf_raised _) as [e|]; cbn.
      { destruct e; cbn; try (split; [done|by intros _]).
        split; [intros _|done]. eexists. rewrite Hcl. split; [done|lia]. }
      match goal with
      | |- context [get_completion_taking fuel ?a ?b ?c ?d ?e ?f ?g ?q] =>
          destruct (IH a b c d e f g q) as [Hint Hother];
          destruct (get_completion_growing fuel a b c d e f g q) as (Hpre & _);
          set (r := get_completion_taking fuel a b c d e f g q) in *
      end.
      cbn in Hint, Hother, Hpre. rewrite Hcl in Hint, Hother.
      apply prefix_length in Hpre.
      assert (Hpass :
        (ended r = Interrupted ->
         exists id, closed (after r) = closed p ++ [id] /\
                    length (completion_calls p) <= id
                      < length (completion_calls (after r))) /\
        (ended r <> Interrupted -> closed (after r) = closed p)).
      { split; [|done]. intros H. destruct (Hint H) as (id & ? & ?).
        exists id. split; [done|lia]. }
      destruct (ended r) as [| |e| |] eqn:Hend; cbn; try exact Hpass.
      destruct e; cbn; try exact Hpass.
      split; [intros _|done]. eexists. rewrite Hother by done.
      split; [done|lia]. }
  assert (Hcache :
    let r := cache F caching c model temperature top_p messages functions p in
    (ended r = Interrupted ->
     exists id, closed (after r) = closed p ++ [id] /\
                length (completion_calls p) <= id
                  < length (completion_calls (after r))) /\
    (ended r <> Interrupted -> closed (after r) = closed p)).
  { unfold cache. destruct caching; [|exact Hbody].
    destruct (cache_get _ _); cbn.
    { destruct (leaves c _); cbn; (split; [done|by intros _]). }
    destruct (returned _); cbn; exact Hbody. }
  by destruct c as [[|n]|].
Qed.

(** X5.  A run calls [close()] on at most one response, and it does so
    exactly when it ends by the return of the [except KeyboardInterrupt]
    branch: the response closed is then one that this very run obtained
    from [completion] (that of the turn whose [try] block the interrupt
    reached, which need not be the latest turn).  A run that ends any other
    way, be it exhausted or by an exception, closes nothing. *)
Theorem close_only_on_interrupt
    (fuel : nat) (caching : bool) (model : string) (temperature top_p : Z)
    (messages : list pyval) (functions : option (list pyval)) (p : process) :
  let r := get_completion fuel caching model temperature top_p messages functions p in
  (ended r = Interrupted ->
   exists id, closed (after r) = closed p ++ [id] /\
              length (completion_calls p) <= id < length (completion_calls (after r))) /\
  (ended r <> Interrupted -> closed (after r) = closed p).
Proof. apply close_taking. Qed.

Lemma empty_functions_taking fuel c model temperature top_p messages p :
  get_completion_taking fuel false c model temperature top_p messages (Some []) p
  = get_completion_taking fuel false c model temperature top_p messages None p.
Proof.
  revert c model temperature top_p messages p.
  induction fuel as [|fuel IH]; intros c model temperature top_p messages p; [done|].
  cbn [get_completion_taking]. destruct c as [[|n]|]; [done|..];
    rewrite !cache_off; unfold get_completion_body, open_stream;
    (assert (Hoffer : offer_tools (effective_functions (Some []))
                        (additional_kwargs p)
                      = offer_tools (effective_functions None) (additional_kwargs p))
       by (unfold effective_functions; by destruct (_ || _)));
    rewrite Hoffer;
    (destruct (match call_kwargs _ _ with inl _ => _ | inr _ => _ end)
      as [[[e|[id response]] messages'] p']; [done|]);
    unfold consume; cbn zeta;
    (destruct (leaves _ _); [done|]);
    (destruct (scan _ _ _ _); try done);
    (destruct (leaves _ _); [done|]);
    (destruct (hf_raised _); [done|]);
    (assert (Heff : effective_functions (Some []) = Some [] \/
                    effective_functions (Some []) = None)
       by (unfold effective_functions; destruct (_ || _); auto));
    (assert (Heff' : effective_functions None = None)
       by (unfold effective_functions; by destruct (_ || _)));
    rewrite Heff'; (destruct Heff as [->| ->]; [|done]); by rewrite IH.
Qed.

(** X6.  With caching off, an empty list of function schemas is no
    schema at all: the run with [functions=[]] is the run with
    [functions=None], under every role. *)
Theorem empty_functions_are_none
    (fuel : nat) (model : string) (temperature top_p : Z)
    (messages : list pyval) (p : process) :
  get_completion fuel false model temperature top_p messages (Some []) p
  = get_completion fuel false model temperature top_p messages None p.
Proof. apply empty_functions_taking. Qed.


(** ** Further properties of the adapter *)

(** X7.  The adapter is idempotent on requests: whatever arguments it
    returns without raising, it returns unchanged when given them again,
    without touching any message a second time. *)
Theorem adapter_idempotent
    (args args' : list pyval) (kwargs kwargs' : gmap string pyval) :
  ad_result (_adapt_parameters_to_anthropic args kwargs) = inr (args', kwargs') ->
  _adapt_parameters_to_anthropic args' kwargs' = Adapted (inr (args', kwargs')) None.
Proof.
  unfold _adapt_parameters_to_anthropic at 1.
  destruct (bool_decide (is_Some (kwargs !! "system"))) eqn:Hsys.
  { intros [= <- <-]. unfold _adapt_parameters_to_anthropic. by rewrite Hsys. }
  destruct (existsb is_system_dict args) eqn:Hargs.
  { intros [= <- <-]. unfold _adapt_parameters_to_anthropic. by rewrite Hsys, Hargs. }
  intros H.
  assert (Hin : is_Some (kwargs' !! "system")).
  { repeat match type of H with
           | context [match ?x with _ => _ end] => destruct x; try discriminate
           end;
      cbn in H; injection H as <- <-; rewrite lookup_insert_eq; by eexists. }
  unfold _adapt_parameters_to_anthropic. by rewrite bool_decide_eq_true_2.
Qed.


Lemma wrapped_well_formed message :
  well_formed message = true -> well_formed (wrapped message) = true.
Proof.
  intros Hwf. apply well_formed_inv in Hwf as (d & r & c & -> & Hr & Hc).
  unfold wrapped. cbn. rewrite Hc. cbn.
  rewrite dict_get_set_eq, dict_get_set_ne, Hr by done.
  apply andb_true_iff. split; apply bool_decide_eq_true; by eexists.
Qed.

Lemma rewritten_well_formed messages :
  Forall (fun m => well_formed m = true) messages ->
  Forall (fun m => well_formed m = true) (rewritten messages).
Proof.
  intros Hwf. unfold rewritten. apply Forall_fmap.
  eapply Forall_impl; [exact Hwf|]. intros m Hm. cbn.
  destruct (is_system_dict m); [done|by apply wrapped_well_formed].
Qed.

Lemma rewritten_systems messages :
  Forall (fun m => well_formed m = true) messages ->
  filter (fun m => is_system_dict m = true) (rewritten messages)
  = filter (fun m => is_system_dict m = true) messages /\
  filter (fun m => is_system_dict m = false) (rewritten messages)
  = map wrapped (filter (fun m => is_system_dict m = false) messages).
Proof.
  induction 1 as [|m messages Hm Hwf [IH1 IH2]]; [done|].
  unfold rewritten in *. cbn [map]. rewrite !filter_cons.
  destruct (wrapped_spec m Hm) as (_ & _ & _ & _ & Hsys).
  destruct (is_system_dict m) eqn:E; rewrite ?E, ?Hsys;
    repeat case_decide; try congruence; cbn [map]; by rewrite IH1, IH2.
Qed.

(** X8.  The adapter rewrites the caller's messages in place, so the
    rewriting adds up over calls: when a second request is built from the
    transcript that a first, successful request has left (as the recursive
    call of a function-call turn does), the vendor receives every non-system
    message with its content wrapped twice, a text block whose text is
    itself a list holding a text block. *)
Theorem adapter_wraps_again_on_reuse
    (kwargs : gmap string pyval) (messages : list pyval) (p : process)
    (system_message : pyval) :
  backend = AnthropicClient ->
  kwargs !! "system" = None ->
  kwargs !! "messages" = Some (PList messages) ->
  Forall (fun m => well_formed m = true) messages ->
  last (filter (fun m => is_system_dict m = true) messages) = Some system_message ->
  kwargs !! "model" = Some (PStr asserted_model) ->
  let first := completion kwargs messages p in
  let left_behind := first.1.2 in
  let second :=
    completion (<["messages" := PList left_behind]> kwargs) left_behind first.2 in
  left_behind = rewritten messages /\
  exists kwargs'',
    second.1.1 = inr (S (length (completion_calls p)),
                      client (S (length (completion_calls p))) kwargs'') /\
    kwargs'' !! "messages"
    = Some (PList (map (fun m => wrapped (wrapped m))
                     (filter (fun m => is_system_dict m = false) messages))) /\
    Forall (fun m => exists c,
                py_getitem m "content" = inr c /\
                py_getitem (wrapped (wrapped m)) "content"
                = inr (text_block (text_block c)))
      (filter (fun m => is_system_dict m = false) messages).
Proof.
  intros Hbackend Hsys Hmsgs Hwf Hlast Hmodel first left_behind second.
  destruct (last_system_well_formed _ _ Hwf Hlast) as [c Hc].
  assert (Hfirst : first
                   = (inr (length (completion_calls p),
                           client (length (completion_calls p))
                             (<["system" := c]>
                                (<["messages" := PList (without_system messages)]>
                                   (delete "messages" kwargs)))),
                      rewritten messages,
                      Process (additional_kwargs p) (completion_calls p ++ [kwargs])
                        (closed p) (dispatched p) (cache_entries p))).
  { subst first. unfold completion.
    rewrite Hbackend, (adapt_shape kwargs messages) by done. cbn zeta.
    rewrite Hlast. cbn [default from_option id]. rewrite Hc, Hmodel.
    unfold py_eq_str. by rewrite String.eqb_refl. }
  assert (Hleft : left_behind = rewritten messages) by (subst left_behind; by rewrite Hfirst).
  split; [exact Hleft|].
  destruct (rewritten_systems messages Hwf) as [Hsystems Hothers].
  eexists. split_and!.
  - subst second. rewrite Hleft, Hfirst. unfold completion.
    cbn [snd completion_calls additional_kwargs closed dispatched cache_entries].
    rewrite Hbackend, (adapt_shape _ (rewritten messages));
      [|by rewrite lookup_insert_ne|by rewrite lookup_insert_eq
       |by apply rewritten_well_formed].
    cbn zeta. rewrite Hsystems, Hlast. cbn [default from_option id].
    rewrite Hc, lookup_insert_ne, Hmodel by done.
    unfold py_eq_str. rewrite String.eqb_refl. cbn [ad_result fst].
    rewrite length_app. cbn [length]. rewrite Nat.add_1_r. reflexivity.
  - rewrite lookup_insert_ne, lookup_insert_eq by done.
    unfold without_system. by rewrite Hothers, map_map.
  - apply Forall_forall. intros m [Hm Hin]%list_elem_of_filter.
    rewrite Forall_forall in Hwf. specialize (Hwf m Hin).
    destruct (wrapped_spec m Hwf) as (c' & Hc' & Hw & _ & _).
    destruct (wrapped_spec (wrapped m) (wrapped_well_formed m Hwf))
      as (c'' & Hc'' & Hw' & _ & _).
    exists c'. split; [done|]. rewrite Hw'. rewrite Hw in Hc''. by injection Hc'' as <-.
Qed.


Lemma offer_tools_lookup_system functions extra :
  offer_tools functions extra !! "system" = extra !! "system".
Proof.
  destruct functions as [[|f fs]|]; cbn [offer_tools]; try done.
  by rewrite !lookup_insert_ne.
Qed.

(** X9.  A call that the adapter rejects is not undone: under the
    Anthropic client, with a system message in a well-formed transcript but
    a model other than the asserted one, the run raises the assertion error
    before anything is streamed, and the caller's transcript is left with
    the content of every non-system message already wrapped. *)
Theorem rejected_request_leaves_transcript_rewritten
    (fuel : nat) (model : string) (temperature top_p : Z)
    (messages : list pyval) (functions : option (list pyval)) (p : process)
    (system_message : pyval) :
  backend = AnthropicClient ->
  keywords_free (additional_kwargs p) = true ->
  additional_kwargs p !! "system" = None ->
  Forall (fun m => well_formed m = true) messages ->
  last (filter (fun m => is_system_dict m = true) messages) = Some system_message ->
  model <> asserted_model ->
  let r := get_completion (S fuel) false model temperature top_p messages functions p in
  ended r = Raised (AssertionError (PStr model)) /\
  yielded r = [] /\
  transcript r = rewritten messages /\
  length (completion_calls (after r)) = S (length (completion_calls p)) /\
  closed (after r) = closed p.
Proof.
  intros Hbackend Hfree Hsys Hwf Hlast Hmodel r.
  destruct (last_system_well_formed _ _ Hwf Hlast) as [c Hc].
  set (extra := offer_tools (effective_functions functions) (additional_kwargs p)).
  set (kwargs := explicit_kwargs model temperature top_p messages ∪ extra).
  assert (Hk1 : kwargs !! "system" = None).
  { subst kwargs. apply lookup_union_None. split; [done|].
    subst extra. by rewrite offer_tools_lookup_system. }
  assert (Hk2 : kwargs !! "messages" = Some (PList messages))
    by (subst kwargs; by apply lookup_union_Some_l).
  assert (Hk3 : kwargs !! "model" = Some (PStr model))
    by (subst kwargs; by apply lookup_union_Some_l).
  assert (Hr : r = Run [] (Raised (AssertionError (PStr model))) (rewritten messages)
                     (Process extra (completion_calls p ++ [kwargs]) (closed p)
                        (dispatched p) (cache_entries p))).
  { subst r. rewrite get_completion_unfold, cache_off.
    unfold get_completion_body, open_stream.
    cbn [with_additional additional_kwargs]. fold extra.
    rewrite call_kwargs_free by (by apply keywords_free_offer_tools).
    fold kwargs. unfold completion.
    rewrite Hbackend, (adapt_shape kwargs messages) by done. cbn zeta.
    rewrite Hlast. cbn [default from_option id]. rewrite Hc, Hk3.
    unfold py_eq_str. apply String.eqb_neq in Hmodel. by rewrite Hmodel. }
  rewrite Hr. cbn. split_and!; try done. rewrite length_app. cbn. lia.
Qed.


(** ** The shared mapping from module load on *)

(** X10.  The keywords that [get_completion] writes out are never keys of
    the shared mapping: this holds when the module has been loaded, under
    every configuration, and every run preserves it, so the expansion of
    [additional_kwargs] into the call of [completion] never repeats a
    keyword.  At load the mapping holds no tool key and no [system] key
    either. *)
Theorem explicit_keywords_stay_free
    (use_litellm_setting api_base_url : string) (request_timeout : Z)
    (fuel : nat) (caching : bool) (model : string) (temperature top_p : Z)
    (messages : list pyval) (functions : option (list pyval)) (p : process) :
  let loaded :=
    initial_additional_kwargs use_litellm_setting request_timeout api_base_url in
  (keywords_free loaded = true /\
   loaded !! "tools" = None /\ loaded !! "tool_choice" = None /\
   loaded !! "parallel_tool_calls" = None /\ loaded !! "system" = None) /\
  (keywords_free (additional_kwargs p) = true ->
   keywords_free
     (additional_kwargs
        (after (get_completion fuel caching model temperature top_p messages
                  functions p))) = true).
Proof.
  cbn zeta. split.
  - unfold initial_additional_kwargs.
    destruct (String.eqb use_litellm_setting "true"); [|done].
    by split_and!.
  - intros Hfree.
    destruct (get_completion_settling fuel caching None model temperature top_p
                messages functions p) as [H | H];
      cbn in H; unfold get_completion; rewrite H; [done|].
    by apply keywords_free_offer_tools.
Qed.

(** ** The adapter on positional arguments *)

Lemma scan_args_spec args messages acc :
  Forall (fun arg => testable arg = true) args ->
  scan_args args messages acc
  = inr (default messages (last (filter (fun arg => transcript_like arg = true) args)),
         acc ++ filter (fun arg => transcript_like arg = false) args).
Proof.
  intros Hargs. revert messages acc.
  induction Hargs as [|arg args Harg _ IH]; intros messages acc.
  { cbn. by rewrite app_nil_r. }
  assert (Hlast : forall x l, default messages (last (x :: l)) = default x (last l)).
  { intros x l. destruct l as [|y l]; [done|]. rewrite last_cons_cons.
    destruct (last (y :: l)) eqn:El; [done|]. by apply last_None in El. }
  cbn [scan_args]. rewrite !filter_cons.
  destruct arg as [| | | | |[|first l]|];
    try (rewrite IH; cbn [transcript_like];
         rewrite decide_False, decide_True by done;
         by rewrite <- app_assoc).
  unfold testable in Harg. unfold transcript_like.
  destruct (py_contains "role" first) as [e|[|]]; [done|..]; rewrite IH.
  - rewrite decide_True, decide_False by done. by rewrite Hlast.
  - rewrite decide_False, decide_True by done. by rewrite <- app_assoc.
Qed.

(** X14.  When the transcript is not given by keyword, the adapter looks
    for it among the positional arguments: every non-empty list whose first
    element contains ["role"] is taken out of the arguments, the last of
    them is the transcript that is reshaped and sent under [messages], and
    the remaining arguments are passed on in their order. *)
Theorem adapter_finds_positional_transcript
    (args : list pyval) (kwargs : gmap string pyval) (messages : list pyval)
    (system_message : pyval) :
  kwargs !! "system" = None ->
  kwargs !! "messages" = None ->
  existsb is_system_dict args = false ->
  Forall (fun arg => testable arg = true) args ->
  last (filter (fun arg => transcript_like arg = true) args) = Some (PList messages) ->
  Forall (fun m => well_formed m = true) messages ->
  last (filter (fun m => is_system_dict m = true) messages) = Some system_message ->
  kwargs !! "model" = Some (PStr asserted_model) ->
  exists c kwargs',
    py_getitem system_message "content" = inr c /\
    ad_result (_adapt_parameters_to_anthropic args kwargs)
    = inr (filter (fun arg => transcript_like arg = false) args, kwargs') /\
    kwargs' !! "messages" = Some (PList (without_system messages)) /\
    kwargs' !! "system" = Some c /\
    forall k, k <> "system" -> k <> "messages" -> kwargs' !! k = kwargs !! k.
Proof.
  intros Hsys Hmsgs Hnone Hargs Hlast Hwf Hlastsys Hmodel.
  destruct (last_system_well_formed _ _ Hwf Hlastsys) as [c Hc].
  exists c, (<["system" := c]>
               (<["messages" := PList (without_system messages)]>
                  (delete "messages" kwargs))).
  split_and!.
  - exact Hc.
  - unfold _adapt_parameters_to_anthropic.
    rewrite Hsys, Hmsgs, Hnone. cbn [default from_option id].
    rewrite bool_decide_eq_false_2 by (by intros [? ?]).
    cbn match. rewrite scan_args_spec, Hlast by done.
    cbn [default from_option id app].
    rewrite adapt_loop_spec by done. cbn zeta. cbn [app].
    rewrite Hlastsys. cbn [default from_option id]. rewrite Hc.
    rewrite !lookup_insert_ne, lookup_delete_ne, Hmodel by done.
    unfold py_eq_str. by rewrite String.eqb_refl.
  - by rewrite lookup_insert_ne, lookup_insert_eq.
  - by rewrite lookup_insert_eq.
  - intros k Hk1 Hk2. by rewrite !lookup_insert_ne, lookup_delete_ne.
Qed.


(** X17.  With [use_litellm] unbound, as the module leaves it (its
    assignment at handler.py:14 is commented out), a response that delivers
    a chunk ends the run on that chunk with [NameError]: nothing has been
    yielded, no function is invoked, no response closed, and the transcript
    is the one the call of [completion] left.  Only an empty response, or an
    interrupt ahead of the first chunk, is consumed without error. *)
Theorem unbound_flag_raises_on_first_chunk
    (fuel : nat) (model : string) (temperature top_p : Z)
    (messages : list pyval) (functions : option (list pyval)) (p : process)
    (id : nat) (c : chunk) (rest : list event) (messages' : list pyval) (p' : process) :
  use_litellm = None ->
  open_stream model temperature top_p messages functions p
    = (inr (id, Next c :: rest), messages', p') ->
  let r := get_completion (S fuel) false model temperature top_p messages functions p in
  ended r = Raised (NameError "use_litellm") /\
  yielded r = [] /\ transcript r = messages' /\
  dispatched (after r) = dispatched p /\ closed (after r) = closed p /\
  scan use_litellm [] "" "" = ScanEnd [] /\
  scan use_litellm (KeyboardInterrupt :: rest) "" "" = ScanInterrupt [].
Proof.
  intros Hnone Hopen r.
  assert (Hr : r = Run [] (Raised (NameError "use_litellm")) messages' p').
  { subst r. rewrite get_completion_unfold, cache_off.
    unfold get_completion_body. rewrite Hopen. unfold consume.
    by rewrite scan_unbound. }
  apply open_stream_frame in Hopen as (_ & Hcl & Hd & _ & _).
  rewrite Hr. cbn. by split_and!.
Qed.

End Handler.

(** ** Properties of sgpt.config *)

Lemma vendor_of_keywords model_name :
  Config.vendor_of model_name Config.VENDOR_KEYWORDS
  = if Config.contains "claude" model_name then Some Config.ANTHROPIC
    else if Config.contains "gpt" model_name then Some Config.OPENAI
    else None.
Proof.
  cbn. rewrite !orb_false_r.
  by destruct (Config.contains "claude" model_name),
              (Config.contains "gpt" model_name).
Qed.

(** X11.  [infer_vendor_from_precedence] raises [ValueError] exactly when
    no model name of the list mentions [claude] or [gpt], in whatever case;
    in particular on the empty list. *)
Theorem infer_vendor_fails_iff_no_keyword (model_precedence : list string) :
  (exists msg, Config.infer_vendor_from_precedence model_precedence
               = inl (Config.ValueError msg)) <->
  Forall (fun model_name => Config.mentions "claude" model_name = false /\
                            Config.mentions "gpt" model_name = false)
    model_precedence.
Proof.
  induction model_precedence as [|model_name rest IH];
    cbn [Config.infer_vendor_from_precedence].
  - split; [by constructor|]. intros _. by eexists.
  - rewrite vendor_of_keywords. fold (Config.mentions "claude" model_name).
    fold (Config.mentions "gpt" model_name). rewrite Forall_cons.
    destruct (Config.mentions "claude" model_name);
      [split; [by intros [? ?]|by intros [[? ?] _]]|].
    destruct (Config.mentions "gpt" model_name);
      [split; [by intros [? ?]|by intros [[? ?] _]]|].
    rewrite IH. tauto.
Qed.

(** X12.  The position in the list decides, then the order of the
    vendors: the result is the vendor of the first model name that mentions
    a keyword, whatever follows it, and a name that mentions both [claude]
    and [gpt] counts for Anthropic. *)
Theorem infer_vendor_first_match
    (skipped : list string) (model_name : string) (rest : list string) :
  Forall (fun name => Config.mentions "claude" name = false /\
                      Config.mentions "gpt" name = false) skipped ->
  Config.mentions "claude" model_name = true \/
    Config.mentions "gpt" model_name = true ->
  Config.infer_vendor_from_precedence (skipped ++ model_name :: rest)
  = inr (if Config.mentions "claude" model_name
         then Config.ANTHROPIC else Config.OPENAI).
Proof.
  intros Hskipped Hmentions.
  induction Hskipped as [|name skipped [Hc Hg] _ IH];
    cbn [app Config.infer_vendor_from_precedence]; rewrite vendor_of_keywords.
  - fold (Config.mentions "claude" model_name).
    fold (Config.mentions "gpt" model_name).
    destruct (Config.mentions "claude" model_name); [done|].
    by destruct Hmentions as [?| ->].
  - fold (Config.mentions "claude" name). fold (Config.mentions "gpt" name).
    by rewrite Hc, Hg.
Qed.

(** X13.  [Config.get] gives the environment priority over the stored
    mapping whenever the variable is set and not empty, falls back to the
    stored value otherwise, and never returns a false value: it raises
    [UsageError] exactly when that choice is [None], empty or zero. *)
Theorem config_get_prefers_environment
    (env : gmap string string) (self : gmap string pyval) (key : string) :
  (forall s, env !! key = Some s -> s <> "" ->
             Config.get env self key = inr (PStr s)) /\
  (env !! key = None \/ env !! key = Some "" ->
   Config.get env self key
   = if Config.py_truth (default PNone (self !! key))
     then inr (default PNone (self !! key))
     else inl (Config.UsageError ("Missing config key: " +:+ key))) /\
  (forall v, Config.get env self key = inr v -> Config.py_truth v = true).
Proof.
  unfold Config.get. split_and!.
  - intros s -> Hs. cbn [Config.py_truth].
    apply String.eqb_neq in Hs. rewrite Hs. cbn [negb Config.py_truth].
    by rewrite Hs.
  - by intros [-> | ->].
  - intros v.
    match goal with
    | |- (if Config.py_truth ?x then _ else _) = _ -> _ =>
        destruct (Config.py_truth x) eqn:Ht
    end; [by intros [= <-]|done].
Qed.


Lemma read_all_snoc stored key value :
  ConfigInit.read_all (stored ++ [(key, value)])
  = <[key := PStr value]> (ConfigInit.read_all stored).
Proof. unfold ConfigInit.read_all. by rewrite foldl_snoc. Qed.

Lemma with_typed_key_other key in_environment typed defaults k :
  k <> key ->
  ConfigInit.with_typed_key key in_environment typed defaults !! k = defaults !! k.
Proof.
  intros Hk. unfold ConfigInit.with_typed_key.
  destruct (_ && _); [|done]. by rewrite lookup_insert_ne.
Qed.

(** X15.  With the model precedence among the defaults as a list (as
    config.py:89 leaves it), [Config.__init__] raises [AttributeError] at
    config.py:127 whenever the configuration file does not exist or does
    not set [MODEL_PRECEDENCE]; by then it has written the file, with the
    list as the value of that key. *)
Theorem config_init_needs_stored_precedence
    (split_comma : string -> list string) (strip : string -> string)
    (file_exists : bool) (stored : list (string * string))
    (defaults : gmap string pyval) (anthropic_in_env openai_in_env : bool)
    (typed_anthropic typed_openai : string) (precedence : list pyval) :
  defaults !! "MODEL_PRECEDENCE" = Some (PList precedence) ->
  file_exists = false \/ ConfigInit.read_all stored !! "MODEL_PRECEDENCE" = None ->
  exists written,
    ConfigInit.init split_comma strip file_exists stored defaults anthropic_in_env
      openai_in_env typed_anthropic typed_openai
    = (inl (ConfigInit.AttributeError "object has no attribute 'split'"),
       Some written) /\
    written !! "MODEL_PRECEDENCE" = Some (PList precedence).
Proof.
  intros Hdefault Hcase. unfold ConfigInit.init, ConfigInit.before_precedence.
  destruct file_exists.
  - destruct Hcase as [?|Hnone]; [done|].
    assert (Hnew : existsb (fun kv => bool_decide (ConfigInit.read_all stored !! kv.1 = None))
                     (map_to_list defaults) = true).
    { apply existsb_exists. exists ("MODEL_PRECEDENCE", PList precedence). split.
      - by apply list_elem_of_In, elem_of_map_to_list.
      - by apply bool_decide_eq_true. }
    rewrite Hnew.
    assert (Hlook : (ConfigInit.read_all stored ∪ defaults) !! "MODEL_PRECEDENCE"
                    = Some (PList precedence))
      by (by rewrite lookup_union_r).
    eexists. split; [|exact Hlook].
    unfold ConfigInit.split_precedence. by rewrite Hlook.
  - set (filled := ConfigInit.with_typed_key _ _ _ (ConfigInit.with_typed_key _ _ _ _)).
    assert (Hlook : filled !! "MODEL_PRECEDENCE" = Some (PList precedence))
      by (subst filled; by rewrite !with_typed_key_other).
    eexists. split; [|exact Hlook].
    unfold ConfigInit.split_precedence. by rewrite Hlook.
Qed.

(** X16.  When the file exists and sets [MODEL_PRECEDENCE], construction
    succeeds: that key holds the stripped pieces of the stored string split
    at commas, every other key holds its stored string if the file has one
    (the last line of a key deciding) and its default otherwise, and the
    file is rewritten exactly when some default key was missing from it. *)
Theorem config_init_merges_file_and_defaults
    (split_comma : string -> list string) (strip : string -> string)
    (stored : list (string * string)) (defaults : gmap string pyval)
    (anthropic_in_env openai_in_env : bool) (typed_anthropic typed_openai : string)
    (s : string) :
  ConfigInit.read_all stored !! "MODEL_PRECEDENCE" = Some (PStr s) ->
  exists self written,
    ConfigInit.init split_comma strip true stored defaults anthropic_in_env
      openai_in_env typed_anthropic typed_openai = (inr self, written) /\
    self !! "MODEL_PRECEDENCE"
    = Some (PList (map (fun m => PStr (strip m)) (split_comma s))) /\
    (forall key, key <> "MODEL_PRECEDENCE" ->
                 self !! key
                 = match ConfigInit.read_all stored !! key with
                   | Some v => Some v
                   | None => defaults !! key
                   end) /\
    (forall key value, ConfigInit.read_all (stored ++ [(key, value)]) !! key
                       = Some (PStr value)) /\
    (written = None <->
     forall key, is_Some (defaults !! key) ->
                 is_Some (ConfigInit.read_all stored !! key)).
Proof.
  intros Hstored. unfold ConfigInit.init, ConfigInit.before_precedence.
  assert (Hlook : (ConfigInit.read_all stored ∪ defaults) !! "MODEL_PRECEDENCE"
                  = Some (PStr s)) by (by apply lookup_union_Some_l).
  unfold ConfigInit.split_precedence. rewrite Hlook.
  eexists _, _. split; [reflexivity|]. split_and!.
  - by rewrite lookup_insert_eq.
  - intros key Hkey. rewrite lookup_insert_ne by done.
    rewrite lookup_union.
    destruct (ConfigInit.read_all stored !! key), (defaults !! key); done.
  - intros key value. by rewrite read_all_snoc, lookup_insert_eq.
  - destruct (existsb _ _) eqn:Hnew.
    + split; [done|]. intros Hall.
      apply existsb_exists in Hnew as ([key v] & Hin & Hnone).
      apply list_elem_of_In, elem_of_map_to_list in Hin.
      apply bool_decide_eq_true in Hnone. cbn in Hnone.
      destruct (Hall key) as [? Hsome]; [by eexists|]. congruence.
    + split; [|done]. intros _ key [v Hv].
      destruct (ConfigInit.read_all stored !! key) eqn:Hk; [by eexists|].
      assert (existsb (fun kv => bool_decide (ConfigInit.read_all stored !! kv.1 = None))
                (map_to_list defaults) = true); [|congruence].
      apply existsb_exists. exists (key, v). split.
      * by apply list_elem_of_In, elem_of_map_to_list.
      * by apply bool_decide_eq_true.
Qed.

(** ** The role override and the shared mapping *)

Section Roles.

Variable use_litellm : option bool.
Variable backend : vendor.
Variable client : nat -> gmap string pyval -> list event.
Variable json_loads : string -> option pyval.
Variable get_function : string -> exn + (list (string * pyval) -> exn + string).
Variable show_functions_output : bool.
Variables SHELL CODE DESCRIBE_SHELL : string.
Variable fingerprint : string -> Z -> Z -> list pyval -> option (list pyval) -> string.
Variable cache_length : nat.
Variable call_interrupted : nat -> bool.

(** [Handler(role).get_completion]: handlers of different roles share the
    module and so the process state. *)
Let handler (role_name : string) : nat -> method :=
  get_completion use_litellm backend client json_loads get_function
    show_functions_output role_name SHELL CODE DESCRIBE_SHELL fingerprint
    cache_length call_interrupted.

(** C5, what the code does instead.  The override of handler.py:137-141
    discards the [functions] argument of the call, not the tool keys that
    an earlier call stored in the shared mapping (handler.py:143-146): after
    a call under a role that does not override, made with function schemas,
    a call under the shell-command, code or describe-shell role sends a
    request that offers those schemas to the vendor, whatever its own
    [functions] argument is. *)
Theorem overriding_role_resends_leaked_tools
    (role role' : string) (fuel fuel' : nat) (model model' : string)
    (temperature top_p temperature' top_p' : Z)
    (messages messages' : list pyval) (f : pyval) (fs : list pyval)
    (functions' : option (list pyval)) (p : process) :
  role <> SHELL -> role <> CODE -> role <> DESCRIBE_SHELL ->
  role' = SHELL \/ role' = CODE \/ role' = DESCRIBE_SHELL ->
  keywords_free (additional_kwargs p) = true ->
  let first := handler role (S fuel) false model temperature top_p messages
                 (Some (f :: fs)) p in
  let second := handler role' (S fuel') false model' temperature' top_p' messages'
                  functions' (after first) in
  exists kwargs,
    completion_calls (after second) !! length (completion_calls (after first))
      = Some kwargs /\
    kwargs !! "tool_choice" = Some (PStr "auto") /\
    kwargs !! "tools" = Some (PList (f :: fs)) /\
    kwargs !! "parallel_tool_calls" = Some (PBool false).
Proof.
  intros H1 H2 H3 Hrole Hfree first second.
  assert (Ha : additional_kwargs (after first)
               = offer_tools (Some (f :: fs)) (additional_kwargs p)).
  { subst first handler. cbn beta. rewrite get_completion_unfold, cache_off.
    rewrite body_settles by apply get_completion_settling.
    by rewrite (effective_functions_kept _ _ _ _ _ H1 H2 H3). }
  eexists. split.
  - subst second handler. cbn beta. rewrite get_completion_unfold, cache_off.
    apply body_request;
      [exact fingerprint|exact cache_length|apply get_completion_growing|].
    rewrite Ha. by apply keywords_free_offer_tools.
  - rewrite (effective_functions_overridden _ _ _ _ _ Hrole), Ha.
    cbn [offer_tools].
    rewrite !lookup_explicit_union
      by (apply tool_keys_not_explicit, list_elem_of_In; cbn; tauto).
    rewrite !lookup_insert. by repeat case_decide.
Qed.

End Roles.

(** ** The statements on the sample data *)

(** The handler of a role [role] over the sample surroundings, with
    [use_litellm] bound or not, answering from the streams given. *)
Local Abbreviation sample_handler bound backend streams role :=
  (get_completion bound backend (Sample.client streams) Sample.json_loads
     Sample.get_function false role "Shell Command Generator" "Code Generator"
     "Shell Command Descriptor" Sample.fingerprint 100 (fun _ => false)).

Local Abbreviation sample_open_stream backend streams role :=
  (open_stream backend (Sample.client streams) role "Shell Command Generator"
     "Code Generator" "Shell Command Descriptor" (fun _ => false)).

(** The same handler as a generator in the hands of a consumer, with the
    calls of [completion] that Ctrl-C cuts short. *)
Local Abbreviation sample_generator bound backend streams role interrupted :=
  (get_completion_taking bound backend (Sample.client streams) Sample.json_loads
     Sample.get_function false role "Shell Command Generator" "Code Generator"
     "Shell Command Descriptor" Sample.fingerprint 100 interrupted).



(** C2 on the sample data, with the module as written unless said
    otherwise.  Ctrl-C while [completion] waits: the interrupt reaches the
    caller.  Ctrl-C while the loop waits for the first chunk, with
    [caching=true]: the response is closed, the generator returns, and the
    empty answer is stored and replayed to the next identical request.  A
    consumer that takes one fragment and stops ([use_litellm] bound, so
    that a fragment is yielded at all): the response is left open. *)
Lemma interrupt_outcomes_by_arrival_witness :
  let waiting := sample_generator None OpenAIClient [Sample.hi_there] "ShellGPT"
                   (fun _ => true) 3 true None "gpt-4o" 0%Z 1%Z Sample.messages
                   None Sample.fresh in
  let streaming := sample_generator None OpenAIClient [Sample.interrupted_at_once]
                     "ShellGPT" (fun _ => false) 3 true None "gpt-4o" 0%Z 1%Z
                     Sample.messages None Sample.fresh in
  let again := sample_generator None OpenAIClient [Sample.interrupted_at_once]
                 "ShellGPT" (fun _ => false) 3 true None "gpt-4o" 0%Z 1%Z
                 Sample.messages None (after streaming) in
  let leaving := sample_generator (Some false) OpenAIClient [Sample.hi_there]
                   "ShellGPT" (fun _ => false) 3 true (Some 1) "gpt-4o" 0%Z 1%Z
                   Sample.messages None Sample.fresh in
  (ended waiting = Raised KeyboardInterruptRaised /\ closed (after waiting) = []) /\
  (ended streaming = Interrupted /\ closed (after streaming) = [0] /\
   cache_get (cache_entries (after streaming))
     (Sample.fingerprint "gpt-4o" 0%Z 1%Z Sample.messages None) = Some [] /\
   ended again = Exhausted /\ yielded again = [] /\
   length (completion_calls (after again)) = 1) /\
  (ended leaving = Abandoned /\ yielded leaving = ["Hi"] /\
   closed (after leaving) = []).
Proof.
  intros waiting streaming again leaving.
  pose (opened1 := open_stream OpenAIClient (Sample.client [Sample.hi_there])
                     "ShellGPT" "Shell Command Generator" "Code Generator"
                     "Shell Command Descriptor" (fun _ => true)
                     "gpt-4o" 0%Z 1%Z Sample.messages None Sample.fresh).
  pose (opened2 := sample_open_stream OpenAIClient [Sample.interrupted_at_once]
                     "ShellGPT" "gpt-4o" 0%Z 1%Z Sample.messages None Sample.fresh).
  pose (opened3 := sample_open_stream OpenAIClient [Sample.hi_there]
                     "ShellGPT" "gpt-4o" 0%Z 1%Z Sample.messages None Sample.fresh).
  destruct (interrupt_outcomes_by_arrival None OpenAIClient
              (Sample.client [Sample.hi_there]) Sample.json_loads
              Sample.get_function false "ShellGPT" "Shell Command Generator"
              "Code Generator" "Shell Command Descriptor" Sample.fingerprint 100
              (fun _ => true) 2 true None "gpt-4o" 0%Z 1%Z Sample.messages None
              Sample.fresh opened1.1.1 opened1.1.2 opened1.2 eq_refl
              (or_intror eq_refl))
    as (Hwaiting & _ & _).
  destruct (Hwaiting eq_refl ltac:(discriminate)) as (Hw1 & _ & Hw2).
  destruct (interrupt_outcomes_by_arrival None OpenAIClient
              (Sample.client [Sample.interrupted_at_once]) Sample.json_loads
              Sample.get_function false "ShellGPT" "Shell Command Generator"
              "Code Generator" "Shell Command Descriptor" Sample.fingerprint 100
              (fun _ => false) 2 true None "gpt-4o" 0%Z 1%Z Sample.messages None
              Sample.fresh opened2.1.1 opened2.1.2 opened2.2 eq_refl
              (or_intror eq_refl))
    as (_ & Hstreaming & _).
  destruct (Hstreaming 0 [] [Next (Sample.text "Hi")] eq_refl (List.Forall_nil _)
              (or_introl eq_refl) eq_refl)
    as (Hs1 & _ & Hs2 & Hs3).
  destruct (interrupt_outcomes_by_arrival (Some false) OpenAIClient
              (Sample.client [Sample.hi_there]) Sample.json_loads
              Sample.get_function false "ShellGPT" "Shell Command Generator"
              "Code Generator" "Shell Command Descriptor" Sample.fingerprint 100
              (fun _ => false) 2 true (Some 1) "gpt-4o" 0%Z 1%Z Sample.messages
              None Sample.fresh opened3.1.1 opened3.1.2 opened3.2 eq_refl
              (or_intror eq_refl))
    as (_ & _ & Hleaving).
  destruct (Hleaving 0 [Sample.text "Hi"; Sample.text " there"] [] 1 eq_refl
              ltac:(repeat constructor) (ex_intro _ false eq_refl) eq_refl
              ltac:(cbn; lia))
    as (Hl1 & Hl2 & Hl3 & _).
  split_and!; try assumption.
  - apply Hs3; [reflexivity|lia].
  - vm_compute; reflexivity.
  - vm_compute; reflexivity.
  - vm_compute; reflexivity.
Defined.

(** C4 on the sample data: the call whose name arrives as [list_] and
    [dir]. *)
Lemma unbound_flag_loses_every_fragment_witness :
  finishes (Sample.call (Some "dir") (Some "}") (Some "tool_calls")) = true /\
  scan None Sample.split_call "" "" = ScanRaise (NameError "use_litellm") [].
Proof.
  split; [reflexivity|].
  destruct (unbound_flag_loses_every_fragment None
              [Sample.call (Some "list_") (Some "{") None]
              (Sample.call (Some "dir") (Some "}") (Some "tool_calls")) []
              eq_refl eq_refl) as (H & _).
  exact H.
Defined.

(** With the flag bound, that call is looked up under [dir], not under the
    concatenation of the name fragments: handler.py:168 assigns the name
    where handler.py:170 appends the arguments. *)
Example split_name_is_not_concatenated :
  exists out name arguments,
    scan (Some false) Sample.split_call "" "" = ScanToolCalls out name arguments /\
    joined (name_fragments
              (tool_calls_of [Sample.call (Some "list_") (Some "{") None;
                              Sample.call (Some "dir") (Some "}") (Some "tool_calls")]))
    = "list_dir" /\
    name = "dir" /\ name <> "list_dir" /\ arguments = "{}".
Proof.
  exists [""], "dir", "{}". split_and!; try reflexivity. discriminate.
Qed.

(** C3 on the sample data: the well-formed call of [list_dir], whose
    second and final chunk reports the function-call finish reason. *)
Lemma function_call_turn_stops_at_unbound_flag_witness :
  let self := sample_generator None OpenAIClient
                [Sample.list_dir_call; Sample.hi_there] "ShellGPT"
                (fun _ => false) 2 in
  let r := get_completion_body None OpenAIClient
             (Sample.client [Sample.list_dir_call; Sample.hi_there])
             Sample.json_loads Sample.get_function false "ShellGPT"
             "Shell Command Generator" "Code Generator" "Shell Command Descriptor"
             (fun _ => false) self None "gpt-4o" 0%Z 1%Z Sample.messages
             (Some [Sample.schema]) Sample.fresh in
  finishes (Sample.call None (Some "{}") (Some "tool_calls")) = true /\
  ended r = Raised (NameError "use_litellm") /\
  yielded r = [] /\
  transcript r = Sample.messages /\
  dispatched (after r) = [] /\
  length (completion_calls (after r)) = 1.
Proof.
  intros self r.
  pose (opened := sample_open_stream OpenAIClient
                    [Sample.list_dir_call; Sample.hi_there] "ShellGPT"
                    "gpt-4o" 0%Z 1%Z Sample.messages (Some [Sample.schema])
                    Sample.fresh).
  destruct (function_call_turn_stops_at_unbound_flag None OpenAIClient
              (Sample.client [Sample.list_dir_call; Sample.hi_there])
              Sample.json_loads Sample.get_function false "ShellGPT"
              "Shell Command Generator" "Code Generator" "Shell Command Descriptor"
              (fun _ => false) self None "gpt-4o" 0%Z 1%Z Sample.messages
              (Some [Sample.schema]) Sample.fresh 0
              [Sample.call (Some "list_dir") None None]
              (Sample.call None (Some "{}") (Some "tool_calls"))
              opened.1.2 opened.2 eq_refl eq_refl eq_refl ltac:(discriminate))
    as (Hrun & Hd & Hc).
  fold r in Hrun. rewrite Hrun. cbn [ended yielded transcript after].
  split_and!; reflexivity.
Defined.

(** C8 on the sample data: the call of [list_dir] with the blob [{path]. *)
Lemma invalid_arguments_never_reach_dispatcher_witness :
  let r := sample_handler None OpenAIClient
             [Sample.broken_call; Sample.hi_there] "ShellGPT"
             3 true "gpt-4o" 0%Z 1%Z Sample.messages (Some [Sample.schema])
             Sample.fresh in
  Sample.json_loads "{path" = None /\
  ended r = Raised (NameError "use_litellm") /\
  yielded r = [] /\ transcript r = Sample.messages /\
  dispatched (after r) = [] /\ cache_entries (after r) = [] /\
  hf_raised (handle_function_call Sample.json_loads Sample.get_function false
               Sample.messages "list_dir" "{path" [])
  = Some JSONDecodeError.
Proof.
  intros r.
  pose (opened := sample_open_stream OpenAIClient
                    [Sample.broken_call; Sample.hi_there] "ShellGPT"
                    "gpt-4o" 0%Z 1%Z Sample.messages (Some [Sample.schema])
                    Sample.fresh).
  destruct (invalid_arguments_never_reach_dispatcher None OpenAIClient
              (Sample.client [Sample.broken_call; Sample.hi_there])
              Sample.json_loads Sample.get_function false "ShellGPT"
              "Shell Command Generator" "Code Generator" "Shell Command Descriptor"
              Sample.fingerprint 100 (fun _ => false) 2 true "gpt-4o" 0%Z 1%Z
              Sample.messages (Some [Sample.schema]) Sample.fresh 0
              [Sample.text "Let me look."]
              (Sample.call (Some "list_dir") (Some "{path") (Some "tool_calls")) []
              opened.1.2 opened.2 eq_refl eq_refl eq_refl eq_refl
              (or_intror eq_refl))
    as (Hend & Hy & Ht & Hd & Hcache & Hraise).
  split_and!; try assumption; reflexivity.
Defined.

(** C5 on the sample data, with the module as written: a call under a
    custom role with the function schemas, then the call that describes a
    shell command, in the same process (app.py:219-279 makes the two calls
    for [--role] with [--shell] followed by the choice [d]). *)
Lemma overriding_role_resends_leaked_tools_witness :
  let first := sample_handler None OpenAIClient [[]; []] "Sysadmin" 3 false "gpt-4o"
                 0%Z 1%Z Sample.messages (Some [Sample.schema]) Sample.fresh in
  let second := sample_handler None OpenAIClient [[]; []] "Shell Command Descriptor"
                  3 false "gpt-4o" 0%Z 1%Z Sample.messages (Some [Sample.schema])
                  (after first) in
  "Sysadmin" <> "Shell Command Generator" /\
  length (completion_calls (after first)) = 1 /\
  exists kwargs,
    completion_calls (after second) !! 1 = Some kwargs /\
    kwargs !! "tool_choice" = Some (PStr "auto") /\
    kwargs !! "tools" = Some (PList [Sample.schema]) /\
    kwargs !! "parallel_tool_calls" = Some (PBool false).
Proof.
  intros first second.
  assert (H1 : "Sysadmin" <> "Shell Command Generator") by discriminate.
  assert (H2 : "Sysadmin" <> "Code Generator") by discriminate.
  assert (H3 : "Sysadmin" <> "Shell Command Descriptor") by discriminate.
  pose proof (overriding_role_resends_leaked_tools None OpenAIClient
                (Sample.client [[]; []]) Sample.json_loads Sample.get_function
                false "Shell Command Generator" "Code Generator"
                "Shell Command Descriptor" Sample.fingerprint 100 (fun _ => false)
                "Sysadmin" "Shell Command Descriptor" 2 2
                "gpt-4o" "gpt-4o" 0%Z 1%Z 0%Z 1%Z Sample.messages Sample.messages
                Sample.schema [] (Some [Sample.schema]) Sample.fresh H1 H2 H3
                (or_intror (or_intror eq_refl)) eq_refl) as Hleak.
  split_and!; [exact H1|vm_compute; reflexivity|exact Hleak].
Defined.

Lemma supplied_functions_request_auto_serial_witness :
  let r := sample_handler (Some false) OpenAIClient
             [Sample.list_dir_call; Sample.hi_there] "ShellGPT" 3 false "gpt-4o"
             0%Z 1%Z Sample.messages (Some [Sample.schema]) Sample.fresh in
  "ShellGPT" <> "Shell Command Generator" /\
  (exists kwargs,
     completion_calls (after r) !! 0 = Some kwargs /\
     kwargs !! "tool_choice" = Some (PStr "auto") /\
     kwargs !! "tools" = Some (PList [Sample.schema]) /\
     kwargs !! "parallel_tool_calls" = Some (PBool false)) /\
  length (dispatched (after r)) = 1 /\ length (completion_calls (after r)) = 2.
Proof.
  intros r.
  assert (H1 : "ShellGPT" <> "Shell Command Generator") by discriminate.
  assert (H2 : "ShellGPT" <> "Code Generator") by discriminate.
  assert (H3 : "ShellGPT" <> "Shell Command Descriptor") by discriminate.
  destruct (supplied_functions_request_auto_serial (Some false) OpenAIClient
              (Sample.client [Sample.list_dir_call; Sample.hi_there])
              Sample.json_loads Sample.get_function false "ShellGPT"
              "Shell Command Generator" "Code Generator" "Shell Command Descriptor"
              Sample.fingerprint 100 (fun _ => false) 2 "gpt-4o" 0%Z 1%Z Sample.messages
              Sample.schema [] Sample.fresh H1 H2 H3 eq_refl)
    as (Hreq & _).
  split_and!; [exact H1|exact Hreq|vm_compute; reflexivity..].
Defined.

(** C9 on the sample data: a call with function schemas, then a call with
    [functions=None] in the same process; the second request still carries
    the three tool keys. *)
Lemma tool_keys_leak_into_later_requests_witness :
  let first := sample_handler None OpenAIClient [[]; []] "ShellGPT" 3 false "gpt-4o"
                 0%Z 1%Z Sample.messages (Some [Sample.schema]) Sample.fresh in
  let second := sample_handler None OpenAIClient [[]; []] "ShellGPT" 3 false "gpt-4o"
                  0%Z 1%Z Sample.messages None (after first) in
  "ShellGPT" <> "Shell Command Generator" /\
  length (completion_calls (after first)) = 1 /\
  exists kwargs,
    completion_calls (after second) !! 1 = Some kwargs /\
    kwargs !! "tool_choice" = Some (PStr "auto") /\
    kwargs !! "tools" = Some (PList [Sample.schema]) /\
    kwargs !! "parallel_tool_calls" = Some (PBool false).
Proof.
  intros first second.
  assert (H1 : "ShellGPT" <> "Shell Command Generator") by discriminate.
  assert (H2 : "ShellGPT" <> "Code Generator") by discriminate.
  assert (H3 : "ShellGPT" <> "Shell Command Descriptor") by discriminate.
  pose proof (tool_keys_leak_into_later_requests None OpenAIClient
                (Sample.client [[]; []]) Sample.json_loads Sample.get_function
                false "ShellGPT" "Shell Command Generator" "Code Generator"
                "Shell Command Descriptor" Sample.fingerprint 100 (fun _ => false) 2 2
                "gpt-4o" "gpt-4o" 0%Z 1%Z 0%Z 1%Z Sample.messages Sample.messages
                Sample.schema [] Sample.fresh H1 H2 H3 eq_refl) as Hleak.
  split_and!; [exact H1|vm_compute; reflexivity|exact Hleak].
Defined.


Lemma adapter_extracts_system_and_wraps_witness :
  Forall (fun m => Anthropic.well_formed m = true) Sample.messages /\
  exists kwargs',
    (completion AnthropicClient (Sample.client [Sample.hi_there])
       (Sample.request Anthropic.asserted_model Sample.messages)
       Sample.messages Sample.fresh).1.1
    = inr (0, Sample.client [Sample.hi_there] 0 kwargs') /\
    kwargs' !! "system" = Some (PStr "You are ShellGPT") /\
    kwargs' !! "messages"
    = Some (PList [PDict [("role", PStr "user");
                          ("content",
                           PList [PDict [("type", PStr "text");
                                         ("text", PStr "hello")]])]]) /\
    kwargs' !! "model" = Some (PStr Anthropic.asserted_model).
Proof.
  assert (Hwf : Forall (fun m => Anthropic.well_formed m = true) Sample.messages)
    by (repeat constructor).
  split; [exact Hwf|].
  destruct (adapter_extracts_system_and_wraps AnthropicClient
              (Sample.client [Sample.hi_there])
              (Sample.request Anthropic.asserted_model Sample.messages)
              Sample.messages Sample.fresh Sample.system_message
              eq_refl eq_refl eq_refl Hwf eq_refl eq_refl)
    as (c & kwargs' & Hc & Hout & Hsys & Hmsgs & Hother & _ & _).
  injection Hc as <-.
  exists kwargs'. split_and!; [exact Hout|exact Hsys|exact Hmsgs|].
  rewrite Hother by discriminate. reflexivity.
Defined.

(** A request for another model of the same vendor, with its system
    message in place: the adapter stops on its assertion and nothing is
    dispatched. *)
Lemma other_model_is_not_dispatched :
  Anthropic.ad_result
    (Anthropic._adapt_parameters_to_anthropic []
       (Sample.request "claude-3-opus-20240229" Sample.messages))
  = inl (AssertionError (PStr "claude-3-opus-20240229")) /\
  (completion AnthropicClient (Sample.client [Sample.hi_there])
     (Sample.request "claude-3-opus-20240229" Sample.messages)
     Sample.messages Sample.fresh).1.1
  = inl (AssertionError (PStr "claude-3-opus-20240229")).
Proof. split; vm_compute; reflexivity. Qed.

Lemma adapter_needs_system_message_and_model_witness :
  Forall (fun m => Anthropic.well_formed m = true) [Sample.user_message] /\
  (completion AnthropicClient (Sample.client [Sample.hi_there])
     (Sample.request Anthropic.asserted_model [Sample.user_message])
     [Sample.user_message] Sample.fresh).1.1
  = inl (TypeError "object is not subscriptable") /\
  ((completion AnthropicClient (Sample.client [Sample.hi_there])
      (Sample.request "gpt-4o" Sample.messages) Sample.messages Sample.fresh).1.1
   = inl (TypeError "object is not subscriptable") \/
   (completion AnthropicClient (Sample.client [Sample.hi_there])
      (Sample.request "gpt-4o" Sample.messages) Sample.messages Sample.fresh).1.1
   = inl (AssertionError (PStr "gpt-4o"))) /\
  exists kwargs',
    (completion AnthropicClient (Sample.client [Sample.hi_there])
       (Sample.request Anthropic.asserted_model Sample.messages)
       Sample.messages Sample.fresh).1.1
    = inr (0, Sample.client [Sample.hi_there] 0 kwargs').
Proof.
  assert (Hwf1 : Forall (fun m => Anthropic.well_formed m = true) [Sample.user_message])
    by (repeat constructor).
  assert (Hwf2 : Forall (fun m => Anthropic.well_formed m = true) Sample.messages)
    by (repeat constructor).
  split_and!.
  - exact Hwf1.
  - destruct (adapter_needs_system_message_and_model AnthropicClient
                (Sample.client [Sample.hi_there])
                (Sample.request Anthropic.asserted_model [Sample.user_message])
                [Sample.user_message] Sample.fresh (PStr Anthropic.asserted_model)
                eq_refl eq_refl eq_refl Hwf1 eq_refl) as (H & _ & _).
    exact (H eq_refl).
  - destruct (adapter_needs_system_message_and_model AnthropicClient
                (Sample.client [Sample.hi_there])
                (Sample.request "gpt-4o" Sample.messages)
                Sample.messages Sample.fresh (PStr "gpt-4o")
                eq_refl eq_refl eq_refl Hwf2 eq_refl) as (_ & H & _).
    exact (H eq_refl).
  - destruct (adapter_needs_system_message_and_model AnthropicClient
                (Sample.client [Sample.hi_there])
                (Sample.request Anthropic.asserted_model Sample.messages)
                Sample.messages Sample.fresh (PStr Anthropic.asserted_model)
                eq_refl eq_refl eq_refl Hwf2 eq_refl) as (_ & _ & H).
    exact (H eq_refl eq_refl).
Defined.

(** The module as written leaves [use_litellm] unbound: on the well-formed
    function call of the sample data the run stops at the first chunk, the
    transcript untouched and no function invoked. *)
Example unbound_flag_stops_function_call :
  let r := sample_handler None OpenAIClient
             [Sample.list_dir_call; Sample.hi_there] "ShellGPT" 3 false "gpt-4o"
             0%Z 1%Z Sample.messages (Some [Sample.schema]) Sample.fresh in
  ended r = Raised (NameError "use_litellm") /\
  yielded r = [] /\ transcript r = Sample.messages /\
  length (completion_calls (after r)) = 1 /\ dispatched (after r) = [].
Proof. vm_compute. by split_and!. Qed.


(** With the flag bound, a consumer that stops at the newline of the
    function-call turn finds the assistant message appended, no function
    invoked and the response left open; one that stops at the end of the
    turn's own output finds the function invoked. *)
Example consumer_leaves_at_function_call :
  let r := sample_generator (Some false) OpenAIClient
             [Sample.list_dir_call; Sample.hi_there] "ShellGPT" (fun _ => false)
             3 false (Some 2) "gpt-4o" 0%Z 1%Z Sample.messages
             (Some [Sample.schema]) Sample.fresh in
  ended r = Abandoned /\ yielded r = [""; nl] /\
  length (transcript r) = 3 /\ dispatched (after r) = [] /\ closed (after r) = [].
Proof. vm_compute. by split_and!. Qed.

(** With the flag bound, an answer cut short by Ctrl-C after its first
    fragment, requested with [caching=true]: the fragment is stored, and the
    same request is then answered from the cache with that fragment alone. *)
Example interrupted_answer_is_replayed :
  let first := sample_handler (Some false) OpenAIClient [Sample.interrupted]
                 "ShellGPT" 3 true "gpt-4o" 0%Z 1%Z Sample.messages None
                 Sample.fresh in
  let second := sample_handler (Some false) OpenAIClient [Sample.interrupted]
                  "ShellGPT" 3 true "gpt-4o" 0%Z 1%Z Sample.messages None
                  (after first) in
  ended first = Interrupted /\ yielded first = ["Hi"] /\
  closed (after first) = [0] /\
  ended second = Exhausted /\ yielded second = ["Hi"] /\
  length (completion_calls (after second)) = 1.
Proof. vm_compute. by split_and!. Qed.

(** With the flag bound, Ctrl-C while the second call of [completion]
    waits, the one made by the function-call turn: the interrupt is caught
    by the turn that made the call, which closes its own response, that of
    the first call, and the run returns. *)
Example interrupt_in_recursive_call_closes_outer :
  let r := sample_generator (Some false) OpenAIClient
             [Sample.list_dir_call; Sample.hi_there] "ShellGPT"
             (fun id => Nat.eqb id 1)
             3 false None "gpt-4o" 0%Z 1%Z Sample.messages
             (Some [Sample.schema]) Sample.fresh in
  ended r = Interrupted /\ yielded r = [""; nl] /\
  length (completion_calls (after r)) = 2 /\ closed (after r) = [0] /\
  dispatched (after r) = [("list_dir", "{}")].
Proof. vm_compute. by split_and!. Qed.


(** ** The further properties on the sample data *)

Lemma plain_stream_is_yielded_witness :
  let r := sample_handler (Some false) OpenAIClient [Sample.hi_there] "ShellGPT"
             3 false "gpt-4o" 0%Z 1%Z Sample.messages None Sample.fresh in
  Forall (fun c => finishes c = false) [Sample.text "Hi"; Sample.text " there"] /\
  ended r = Exhausted /\ yielded r = ["Hi"; " there"] /\
  length (completion_calls (after r)) = 1.
Proof.
  intros r.
  assert (Hplain : Forall (fun c => finishes c = false)
                     [Sample.text "Hi"; Sample.text " there"])
    by (repeat constructor).
  pose (opened := sample_open_stream OpenAIClient [Sample.hi_there] "ShellGPT"
                    "gpt-4o" 0%Z 1%Z Sample.messages None Sample.fresh).
  destruct (plain_stream_is_yielded (Some false) OpenAIClient
              (Sample.client [Sample.hi_there]) Sample.json_loads
              Sample.get_function false "ShellGPT" "Shell Command Generator"
              "Code Generator" "Shell Command Descriptor" Sample.fingerprint 100 (fun _ => false)
              2 false "gpt-4o" 0%Z 1%Z Sample.messages None Sample.fresh
              0 [Sample.text "Hi"; Sample.text " there"] opened.1.2 opened.2
              eq_refl eq_refl Hplain)
    as (Hend & Hy & _ & Hc & _ & _).
  split_and!; assumption.
Defined.

Lemma dispatch_errors_surface_witness :
  let r := sample_handler (Some false) OpenAIClient
             [Case.unknown_call; Sample.hi_there] "ShellGPT"
             3 false "gpt-4o" 0%Z 1%Z Sample.messages (Some [Sample.schema])
             Sample.fresh in
  let r' := get_completion (Some false) OpenAIClient
              (Sample.client [Case.sleep_call; Sample.hi_there])
              Sample.json_loads Case.get_function false "ShellGPT"
              "Shell Command Generator" "Code Generator" "Shell Command Descriptor"
              Sample.fingerprint 100 (fun _ => false)
              3 false "gpt-4o" 0%Z 1%Z Sample.messages (Some [Sample.schema])
              Sample.fresh in
  Sample.get_function "erase_disk" = inl (FunctionError "function not found") /\
  ended r = Raised (FunctionError "function not found") /\
  yielded r = ["One moment."; nl] /\
  length (transcript r) = 3 /\ length (completion_calls (after r)) = 1 /\
  closed (after r) = [] /\
  ended r' = Interrupted /\ closed (after r') = [0] /\
  dispatched (after r') = [("sleep", "{}")].
Proof.
  intros r r'.
  pose (opened := sample_open_stream OpenAIClient
                    [Case.unknown_call; Sample.hi_there] "ShellGPT"
                    "gpt-4o" 0%Z 1%Z Sample.messages (Some [Sample.schema])
                    Sample.fresh).
  pose (opened' := sample_open_stream OpenAIClient
                     [Case.sleep_call; Sample.hi_there] "ShellGPT"
                     "gpt-4o" 0%Z 1%Z Sample.messages (Some [Sample.schema])
                     Sample.fresh).
  destruct (dispatch_errors_surface (Some false) OpenAIClient
              (Sample.client [Case.unknown_call; Sample.hi_there])
              Sample.json_loads Sample.get_function false "ShellGPT"
              "Shell Command Generator" "Code Generator" "Shell Command Descriptor"
              Sample.fingerprint 100 (fun _ => false) 2 false "gpt-4o" 0%Z 1%Z
              Sample.messages (Some [Sample.schema]) Sample.fresh 0
              [Sample.text "One moment."]
              (Sample.call (Some "erase_disk") (Some "{}") (Some "tool_calls")) []
              opened.1.2 opened.2 (FunctionError "function not found")
              eq_refl eq_refl ltac:(repeat constructor) eq_refl eq_refl)
    as (Hy & Ht & Hc & _ & Hother & _).
  destruct (Hother ltac:(discriminate)) as [Hend Hcl].
  destruct (dispatch_errors_surface (Some false) OpenAIClient
              (Sample.client [Case.sleep_call; Sample.hi_there])
              Sample.json_loads Case.get_function false "ShellGPT"
              "Shell Command Generator" "Code Generator" "Shell Command Descriptor"
              Sample.fingerprint 100 (fun _ => false) 2 false "gpt-4o" 0%Z 1%Z
              Sample.messages (Some [Sample.schema]) Sample.fresh 0
              []
              (Sample.call (Some "sleep") (Some "{}") (Some "tool_calls")) []
              opened'.1.2 opened'.2 KeyboardInterruptRaised
              eq_refl eq_refl ltac:(constructor) eq_refl eq_refl)
    as (_ & _ & _ & _ & _ & Hcaught).
  destruct (Hcaught eq_refl) as [Hend' Hcl'].
  fold r in Hy, Ht, Hc, Hend, Hcl. fold r' in Hend', Hcl'.
  split_and!; try assumption; try reflexivity;
    rewrite ?Ht, ?Hc; reflexivity.
Defined.

Lemma transcript_only_grows_witness :
  let r := sample_handler (Some false) OpenAIClient
             [Sample.list_dir_call; Sample.hi_there] "ShellGPT"
             3 false "gpt-4o" 0%Z 1%Z Sample.messages (Some [Sample.schema])
             Sample.fresh in
  OpenAIClient <> AnthropicClient /\
  exists added,
    transcript r = Sample.messages ++ added /\
    Forall (fun m => turn_message m = true) added /\ length added = 2.
Proof.
  intros r.
  assert (Hb : OpenAIClient <> AnthropicClient) by discriminate.
  split; [exact Hb|].
  destruct (transcript_only_grows (Some false) OpenAIClient
              (Sample.client [Sample.list_dir_call; Sample.hi_there])
              Sample.json_loads Sample.get_function false "ShellGPT"
              "Shell Command Generator" "Code Generator" "Shell Command Descriptor"
              Sample.fingerprint 100 (fun _ => false) 3 false "gpt-4o" 0%Z 1%Z Sample.messages
              (Some [Sample.schema]) Sample.fresh Hb)
    as (added & Ht & Hadded).
  exists added. split_and!; [exact Ht|exact Hadded|].
  fold r in Ht. apply (f_equal length) in Ht.
  rewrite length_app in Ht.
  assert (Hlen : length (transcript r) = 4) by (vm_compute; reflexivity).
  rewrite Hlen in Ht. cbn in Ht. lia.
Defined.

Lemma adapter_idempotent_witness :
  exists args' kwargs',
    Anthropic.ad_result
      (Anthropic._adapt_parameters_to_anthropic []
         (Sample.request Anthropic.asserted_model Sample.messages))
    = inr (args', kwargs') /\
    Anthropic._adapt_parameters_to_anthropic args' kwargs'
    = Anthropic.Adapted (inr (args', kwargs')) None.
Proof.
  eexists _, _. split; [vm_compute; reflexivity|].
  apply (adapter_idempotent [] _
           (Sample.request Anthropic.asserted_model Sample.messages) _).
  vm_compute. reflexivity.
Defined.


Lemma adapter_wraps_again_on_reuse_witness :
  let kwargs := Sample.request Anthropic.asserted_model Sample.messages in
  let first := completion AnthropicClient (Sample.client [Sample.hi_there; Sample.hi_there])
                 kwargs Sample.messages Sample.fresh in
  let second := completion AnthropicClient
                  (Sample.client [Sample.hi_there; Sample.hi_there])
                  (<["messages" := PList first.1.2]> kwargs) first.1.2 first.2 in
  Forall (fun m => Anthropic.well_formed m = true) Sample.messages /\
  exists kwargs'',
    second.1.1 = inr (1, Sample.client [Sample.hi_there; Sample.hi_there] 1 kwargs'') /\
    kwargs'' !! "messages"
    = Some (PList
              [PDict
                 [("role", PStr "user");
                  ("content",
                   PList
                     [PDict
                        [("type", PStr "text");
                         ("text",
                          PList [PDict [("type", PStr "text");
                                        ("text", PStr "hello")]])]])]]).
Proof.
  intros kwargs first second.
  assert (Hwf : Forall (fun m => Anthropic.well_formed m = true) Sample.messages)
    by (repeat constructor).
  split; [exact Hwf|].
  destruct (adapter_wraps_again_on_reuse AnthropicClient
              (Sample.client [Sample.hi_there; Sample.hi_there])
              kwargs Sample.messages Sample.fresh Sample.system_message
              eq_refl eq_refl eq_refl Hwf eq_refl eq_refl)
    as (_ & kwargs'' & Hsecond & Hmsgs & _).
  exists kwargs''. split; [exact Hsecond|exact Hmsgs].
Defined.

Lemma rejected_request_leaves_transcript_rewritten_witness :
  let r := sample_handler (Some false) AnthropicClient [Sample.hi_there] "ShellGPT"
             3 false "claude-3-opus-20240229" 0%Z 1%Z Sample.messages None
             Sample.fresh in
  "claude-3-opus-20240229" <> Anthropic.asserted_model /\
  ended r = Raised (AssertionError (PStr "claude-3-opus-20240229")) /\
  yielded r = [] /\
  transcript r
  = [Sample.system_message;
     PDict [("role", PStr "user");
            ("content", PList [PDict [("type", PStr "text");
                                      ("text", PStr "hello")]])]] /\
  transcript r <> Sample.messages.
Proof.
  intros r.
  assert (Hm : "claude-3-opus-20240229" <> Anthropic.asserted_model) by discriminate.
  assert (Hwf : Forall (fun m => Anthropic.well_formed m = true) Sample.messages)
    by (repeat constructor).
  destruct (rejected_request_leaves_transcript_rewritten (Some false) AnthropicClient
              (Sample.client [Sample.hi_there]) Sample.json_loads
              Sample.get_function false "ShellGPT" "Shell Command Generator"
              "Code Generator" "Shell Command Descriptor" Sample.fingerprint 100 (fun _ => false)
              2 "claude-3-opus-20240229" 0%Z 1%Z Sample.messages None Sample.fresh
              Sample.system_message eq_refl eq_refl eq_refl Hwf eq_refl Hm)
    as (Hend & Hy & Ht & _ & _).
  fold r in Hend, Hy, Ht.
  split_and!; try assumption. rewrite Ht. discriminate.
Defined.

Lemma explicit_keywords_stay_free_witness :
  let loaded := initial_additional_kwargs "true" 60 "default" in
  let r := sample_handler (Some false) LiteLLM [Sample.hi_there] "ShellGPT"
             3 false "gpt-4o" 0%Z 1%Z Sample.messages (Some [Sample.schema])
             (Process loaded [] [] [] []) in
  keywords_free loaded = true /\
  keywords_free (additional_kwargs (after r)) = true /\
  additional_kwargs (after r) !! "tools" = Some (PList [Sample.schema]).
Proof.
  intros loaded r.
  destruct (explicit_keywords_stay_free (Some false) LiteLLM
              (Sample.client [Sample.hi_there]) Sample.json_loads
              Sample.get_function false "ShellGPT" "Shell Command Generator"
              "Code Generator" "Shell Command Descriptor" Sample.fingerprint 100 (fun _ => false)
              "true" "default" 60 3 false "gpt-4o" 0%Z 1%Z Sample.messages
              (Some [Sample.schema]) (Process loaded [] [] [] []))
    as ((Hloaded & _) & Hkeep).
  split_and!; [exact Hloaded|exact (Hkeep Hloaded)|vm_compute; reflexivity].
Defined.

Lemma infer_vendor_fails_iff_no_keyword_witness :
  exists msg,
    Config.infer_vendor_from_precedence ["llama-3-70b"; "mistral-large"]
    = inl (Config.ValueError msg).
Proof.
  apply (proj2 (infer_vendor_fails_iff_no_keyword ["llama-3-70b"; "mistral-large"])).
  repeat constructor.
Defined.

Lemma infer_vendor_first_match_witness :
  Forall (fun name => Config.mentions "claude" name = false /\
                      Config.mentions "gpt" name = false) ["llama-3-70b"] /\
  Config.infer_vendor_from_precedence Case.precedence = inr Config.OPENAI.
Proof.
  assert (H : Forall (fun name => Config.mentions "claude" name = false /\
                                  Config.mentions "gpt" name = false) ["llama-3-70b"])
    by (repeat constructor).
  split; [exact H|].
  exact (infer_vendor_first_match ["llama-3-70b"] "GPT-4o" ["claude-3-opus"]
           H (or_intror eq_refl)).
Defined.

Lemma config_get_prefers_environment_witness :
  let env : gmap string string := <["DEFAULT_COLOR" := "green"]> (<["CODE_THEME" := ""]> ∅) in
  let self : gmap string pyval :=
    <["DEFAULT_COLOR" := PStr "magenta"]> (<["CODE_THEME" := PStr "dracula"]>
    (<["CACHE_LENGTH" := PInt 0]> ∅)) in
  Config.get env self "DEFAULT_COLOR" = inr (PStr "green") /\
  Config.get env self "CODE_THEME" = inr (PStr "dracula") /\
  Config.get env self "CACHE_LENGTH"
  = inl (Config.UsageError "Missing config key: CACHE_LENGTH").
Proof.
  intros env self.
  destruct (config_get_prefers_environment env self "DEFAULT_COLOR") as (H1 & _ & _).
  destruct (config_get_prefers_environment env self "CODE_THEME") as (_ & H2 & _).
  destruct (config_get_prefers_environment env self "CACHE_LENGTH") as (_ & H3 & _).
  split_and!.
  - apply H1; [reflexivity|discriminate].
  - rewrite H2 by (right; reflexivity). reflexivity.
  - rewrite H3 by (left; reflexivity). reflexivity.
Defined.

Lemma adapter_finds_positional_transcript_witness :
  Forall (fun arg => testable arg = true) Case.positional /\
  exists kwargs',
    Anthropic.ad_result
      (Anthropic._adapt_parameters_to_anthropic Case.positional Case.keywords_only)
    = inr ([PInt 7], kwargs') /\
    kwargs' !! "system" = Some (PStr "You are ShellGPT") /\
    kwargs' !! "messages" = Some (PList (Anthropic.without_system Sample.messages)).
Proof.
  assert (Hargs : Forall (fun arg => testable arg = true) Case.positional)
    by (repeat constructor).
  assert (Hwf : Forall (fun m => Anthropic.well_formed m = true) Sample.messages)
    by (repeat constructor).
  split; [exact Hargs|].
  destruct (adapter_finds_positional_transcript Case.positional Case.keywords_only
              Sample.messages Sample.system_message
              eq_refl eq_refl eq_refl Hargs eq_refl Hwf eq_refl eq_refl)
    as (c & kwargs' & Hc & Hres & Hmsgs & Hsys & _).
  injection Hc as <-.
  exists kwargs'. split_and!; [exact Hres|exact Hsys|exact Hmsgs].
Defined.


Lemma config_init_needs_stored_precedence_witness :
  exists written,
    ConfigInit.init (fun s => [s]) (fun s => s) false [] Case.defaults true true "" ""
    = (inl (ConfigInit.AttributeError "object has no attribute 'split'"),
       Some written) /\
    written !! "MODEL_PRECEDENCE"
    = Some (PList [PStr "claude-3-5-sonnet-20241022"; PStr "gpt-4o"]).
Proof.
  exact (config_init_needs_stored_precedence (fun s => [s]) (fun s => s) false []
           Case.defaults true true "" ""
           [PStr "claude-3-5-sonnet-20241022"; PStr "gpt-4o"]
           eq_refl (or_introl eq_refl)).
Defined.

Lemma config_init_merges_file_and_defaults_witness :
  exists self written,
    ConfigInit.init (fun s => [s]) (fun s => s) true Case.stored Case.defaults
      true true "" "" = (inr self, written) /\
    self !! "MODEL_PRECEDENCE" = Some (PList [PStr "gpt-4o"]) /\
    self !! "DEFAULT_COLOR" = Some (PStr "green").
Proof.
  destruct (config_init_merges_file_and_defaults (fun s => [s]) (fun s => s)
              Case.stored Case.defaults true true "" "" "gpt-4o" eq_refl)
    as (self & written & Hinit & Hprec & Hkeys & _).
  exists self, written. split_and!; [exact Hinit|exact Hprec|].
  rewrite Hkeys by discriminate. reflexivity.
Defined.


Lemma unbound_flag_raises_on_first_chunk_witness :
  let r := sample_handler None OpenAIClient [Sample.hi_there] "ShellGPT"
             3 false "gpt-4o" 0%Z 1%Z Sample.messages None Sample.fresh in
  ended r = Raised (NameError "use_litellm") /\ yielded r = [] /\
  transcript r = Sample.messages.
Proof.
  intros r.
  pose (opened := sample_open_stream OpenAIClient [Sample.hi_there] "ShellGPT"
                    "gpt-4o" 0%Z 1%Z Sample.messages None Sample.fresh).
  destruct (unbound_flag_raises_on_first_chunk None OpenAIClient
              (Sample.client [Sample.hi_there]) Sample.json_loads
              Sample.get_function false "ShellGPT" "Shell Command Generator"
              "Code Generator" "Shell Command Descriptor" Sample.fingerprint 100 (fun _ => false)
              2 "gpt-4o" 0%Z 1%Z Sample.messages None Sample.fresh
              0 (Sample.text "Hi") [Next (Sample.text " there")]
              opened.1.2 opened.2 eq_refl eq_refl)
    as (Hend & Hy & Ht & _).
  split_and!; assumption.
Defined.
